(** * EarthExplorer session: login handshake and streamed download

    A shallow embedding of [landsatxplore/earthexplorer.py].

    Conventions of the model.
    - A Python [str] is a [string] (a sequence of bytes, the UTF-8 encoding
      of the text); a Python [bytes] object is a [list Byte.byte].
    - A Python exception is a value of [exn]; a fallible computation
      returns a [result].
    - The session (cookie jar), the file system, the progress bar and the
      log of requests form the [world], threaded through the methods of
      [EarthExplorer] by a state-and-exception monad.  The state survives
      an exception, as in Python.
    - What lives outside the module (the portal answering the requests, the
      helpers of [landsatxplore.util] and [landsatxplore.api], the builtin
      [int]) is a parameter of the model.  The helpers and [int] may raise.
    - The cookie jar keeps one cookie for each domain, path and name, and
      [cookies.get] and the headers of a response behave as in requests
      ([RequestsCookieJar], [CaseInsensitiveDict]).
    - [os.makedirs] and [write] succeed; whether [open] succeeds is for
      the operating system to say.  Paths are POSIX paths. *)

From Stdlib Require Import ZArith Ascii String List Lia.
From Stdlib.Strings Require Import Byte.
From stdpp Require Import base option list strings gmap pretty.

Local Open Scope Z_scope.

(** ** Python values *)

Module Py.

(** The double quote and the newline, written by their codes. *)
Definition dquote : ascii := "034"%char.
Definition newline : ascii := "010"%char.
Definition DQ : string := String dquote EmptyString.

(** Exceptions the module raises or lets through. *)
Inductive exn : Type :=
| IndexError                          (* list index out of range *)
| KeyError (key : string)
| ValueError
| TypeError
| EarthExplorerError (msg : string)   (* landsatxplore.errors *)
| RequestsTimeout                     (* requests.exceptions.Timeout and subclasses *)
| OtherError (name : string).         (* any other exception of a library *)

Inductive result (A : Type) : Type :=
| Ok (a : A)
| Raise (e : exn).
Arguments Ok {A} a.
Arguments Raise {A} e.

Definition is_ok {A} (r : result A) : bool :=
  match r with Ok _ => true | Raise _ => false end.

(** [not s] for a string [s]: true on the empty string only. *)
Definition str_falsy (s : string) : bool :=
  match s with EmptyString => true | String _ _ => false end.

(** [l[0]] *)
Definition index_first {A} (l : list A) : result A :=
  match l with
  | [] => Raise IndexError
  | x :: _ => Ok x
  end.

(** [l[-1]] *)
Fixpoint index_last {A} (l : list A) : result A :=
  match l with
  | [] => Raise IndexError
  | [x] => Ok x
  | _ :: l' => index_last l'
  end.

(** [s.split(sep)] for a separator of one character: the pieces between
    the occurrences of [sep], one more than there are occurrences. *)
Fixpoint str_split (sep : ascii) (s : string) : list string :=
  match s with
  | EmptyString => [EmptyString]
  | String c s' =>
      if Ascii.eqb c sep then EmptyString :: str_split sep s'
      else match str_split sep s' with
           | [] => [String c EmptyString]
           | p :: ps => String c p :: ps
           end
  end.

(** [s.replace(old, empty)] for [old] of one character: every occurrence
    is removed. *)
Fixpoint str_remove (old : ascii) (s : string) : string :=
  match s with
  | EmptyString => EmptyString
  | String c s' =>
      if Ascii.eqb c old then str_remove old s' else String c (str_remove old s')
  end.

Fixpoint str_startswith (pre s : string) : bool :=
  match pre, s with
  | EmptyString, _ => true
  | String a pre', String b s' => Ascii.eqb a b && str_startswith pre' s'
  | String _ _, EmptyString => false
  end.

Fixpoint str_endswith_char (c : ascii) (s : string) : bool :=
  match s with
  | EmptyString => false
  | String a EmptyString => Ascii.eqb a c
  | String _ s' => str_endswith_char c s'
  end.

(** [c in s] *)
Fixpoint str_contains_char (c : ascii) (s : string) : bool :=
  match s with
  | EmptyString => false
  | String a s' => Ascii.eqb a c || str_contains_char c s'
  end.

(** [os.path.join(a, b)] of [posixpath]. *)
Definition os_path_join (a b : string) : string :=
  if str_startswith "/" b || str_falsy a then b
  else if str_endswith_char "/" a then a +:+ b
  else a +:+ "/" +:+ b.

(** Keyword and positional arguments of [str.format]. *)
Fixpoint kw_lookup (name : string) (kwargs : list (string * string)) : option string :=
  match kwargs with
  | [] => None
  | (k, v) :: rest => if String.eqb k name then Some v else kw_lookup name rest
  end.

(** [template.format] with positional and keyword arguments, for templates whose replacement
    fields are [{}] or [{name}]: no escaped brace, conversion or format
    specification, which is the case of both templates of the module.
    [field] holds the name being read between the braces. *)
Fixpoint format_from (template : string) (field : option string)
    (args : list string) (kwargs : list (string * string)) : result string :=
  match template with
  | EmptyString =>
      match field with
      | None => Ok EmptyString
      | Some _ => Raise ValueError
      end
  | String c rest =>
      match field with
      | None =>
          if Ascii.eqb c "{" then format_from rest (Some EmptyString) args kwargs
          else if Ascii.eqb c "}" then Raise ValueError
          else match format_from rest None args kwargs with
               | Ok out => Ok (String c out)
               | Raise e => Raise e
               end
      | Some name =>
          if Ascii.eqb c "}" then
            match name with
            | EmptyString =>
                match args with
                | [] => Raise IndexError
                | v :: args' =>
                    match format_from rest None args' kwargs with
                    | Ok out => Ok (v +:+ out)
                    | Raise e => Raise e
                    end
                end
            | _ =>
                match kw_lookup name kwargs with
                | None => Raise (KeyError name)
                | Some v =>
                    match format_from rest None args kwargs with
                    | Ok out => Ok (v +:+ out)
                    | Raise e => Raise e
                    end
                end
            end
          else format_from rest (Some (name +:+ String c EmptyString)) args kwargs
      end
  end.

Definition str_format (template : string) (args : list string)
    (kwargs : list (string * string)) : result string :=
  format_from template None args kwargs.

(** [s.lower()], on the ASCII letters. *)
Definition ascii_lower (c : ascii) : ascii :=
  let n := nat_of_ascii c in
  if ((65 <=? n) && (n <=? 90))%nat then ascii_of_nat (n + 32) else c.

Fixpoint str_lower (s : string) : string :=
  match s with
  | EmptyString => EmptyString
  | String c s' => String (ascii_lower c) (str_lower s')
  end.

(** [str(n)] for an integer. *)
Definition str_of_int (n : Z) : string := pretty n.

End Py.

(** ** The regular expressions of the module

    Both patterns have the shape [literal (.+?) literal]: literal
    characters and one capturing group holding a lazy [.+?]. *)

Module Re.
Import Py.

Inductive item : Type :=
| Lit (c : ascii)      (* one literal character *)
| LazyGroup.           (* the group (.+?) *)

Definition regex : Type := list item.

Fixpoint lits (s : string) : regex :=
  match s with
  | EmptyString => []
  | String c s' => Lit c :: lits s'
  end.

(** [re_match p s]: match [p] at the start of [s], by backtracking.  The
    result is the text captured by the group and the number of characters
    the whole match consumed.  [.] matches any character but the newline;
    the lazy [+?] takes one character and then as few more as let the rest
    of the pattern match. *)
Fixpoint re_match (p : regex) (s : string) : option (string * nat) :=
  match p with
  | [] => Some (EmptyString, O)
  | Lit c :: p' =>
      match s with
      | EmptyString => None
      | String a s' =>
          if Ascii.eqb a c then
            match re_match p' s' with
            | Some (g, n) => Some (g, S n)
            | None => None
            end
          else None
      end
  | LazyGroup :: p' =>
      (fix lazy (s : string) : option (string * nat) :=
         match s with
         | EmptyString => None
         | String a s' =>
             if Ascii.eqb a newline then None
             else match re_match p' s' with
                  | Some (_, n) => Some (String a EmptyString, S n)
                  | None =>
                      match lazy s' with
                      | Some (g, n) => Some (String a g, S n)
                      | None => None
                      end
                  end
         end) s
  end.

(** [re.findall(p, s)] for a pattern with one group: the captures of the
    matches found scanning left to right, the matches not overlapping.
    [skip] counts the characters of the last match still to be passed. *)
Fixpoint findall_from (p : regex) (skip : nat) (s : string) : list string :=
  match s with
  | EmptyString =>
      match skip, re_match p EmptyString with
      | O, Some (g, _) => [g]
      | _, _ => []
      end
  | String _ s' =>
      match skip with
      | S k => findall_from p k s'
      | O =>
          match re_match p s with
          | Some (g, n) => g :: findall_from p (Nat.pred n) s'
          | None => findall_from p O s'
          end
      end
  end.

Definition findall (p : regex) (s : string) : list string := findall_from p O s.

End Re.

(** ** Module constants and [_get_tokens] *)

Import Py.

Definition EE_URL : string := "https://earthexplorer.usgs.gov/".
Definition EE_LOGIN_URL : string := "https://ers.cr.usgs.gov/login/".
Definition EE_LOGOUT_URL : string := "https://earthexplorer.usgs.gov/logout".
Definition EE_DOWNLOAD_URL : string :=
  "https://earthexplorer.usgs.gov/download/{data_product_id}/{scene_id}/EE/".

(** IDs of GeoTIFF data product for each dataset *)
Definition DATA_PRODUCTS : gmap string string :=
  list_to_map
    [ ("landsat_tm_c1", "5e83d08fd9932768");
      ("landsat_etm_c1", "5e83a507d6aaa3db");
      ("landsat_8_c1", "5e83d0b84df8d8c2");
      ("landsat_tm_c2_l1", "5e83d0a0f94d7d8d");
      ("landsat_etm_c2_l1", "5e83d0d08fec8a66");
      ("landsat_ot_c2_l1", "5e81f14f92acf9ef");
      ("landsat_tm_c2_l2", "5e83d11933473426");
      ("landsat_etm_c2_l2", "5e83d12aed0efa58");
      ("landsat_ot_c2_l2", "5e83d14fec7cae84");
      ("sentinel_2a", "5e83a42c6eba8084") ].

(** The pattern of the csrf token: name=, csrf in double quotes, a space,
    value=, and the group (.+?) in double quotes. *)
Definition csrf_pattern : Re.regex :=
  Re.lits ("name=" +:+ DQ +:+ "csrf" +:+ DQ +:+ " value=" +:+ DQ)
    ++ [Re.LazyGroup] ++ Re.lits DQ.

(** The same pattern for the attribute named __ncforminfo. *)
Definition ncform_pattern : Re.regex :=
  Re.lits ("name=" +:+ DQ +:+ "__ncforminfo" +:+ DQ +:+ " value=" +:+ DQ)
    ++ [Re.LazyGroup] ++ Re.lits DQ.

Definition _get_tokens (body : string) : result (string * string) :=
  match index_first (Re.findall csrf_pattern body) with
  | Raise e => Raise e
  | Ok csrf =>
      match index_first (Re.findall ncform_pattern body) with
      | Raise e => Raise e
      | Ok ncform =>
          if str_falsy csrf then
            Raise (EarthExplorerError "EE: login failed (csrf token not found).")
          else if str_falsy ncform then
            Raise (EarthExplorerError "EE: login failed (ncforminfo not found).")
          else Ok (csrf, ncform)
      end
  end.

(** ** The world of an [EarthExplorer] object *)

Inductive request : Type :=
| Get (url : string)
| Post (url : string) (data : list (string * string))
| GetStream (url : string) (timeout : Z).   (* get with stream=True and a timeout *)

(** A cookie; the jar keeps one for each domain, path and name. *)
Record cookie : Type := Cookie {
  ck_domain : string;
  ck_path : string;
  ck_name : string;
  ck_value : string
}.

(** What can break the body while [iter_content] reads it: the errors of
    urllib3 that [iter_content] catches, each raised again as an exception
    of requests.  A read timeout comes out as [ConnectionError], which is
    not a [Timeout]. *)
Inductive stream_failure : Type :=
| ProtocolFailure    (* ProtocolError, raised as ChunkedEncodingError *)
| DecodeFailure      (* DecodeError, raised as ContentDecodingError *)
| ReadTimedOut       (* ReadTimeoutError, raised as ConnectionError *)
| SSLFailure.        (* SSLError, raised as SSLError of requests *)

Definition iter_content_error (f : stream_failure) : exn :=
  match f with
  | ProtocolFailure => OtherError "ChunkedEncodingError"
  | DecodeFailure => OtherError "ContentDecodingError"
  | ReadTimedOut => OtherError "ConnectionError"
  | SSLFailure => OtherError "SSLError"
  end.

(** What a request brings back: the body text, the headers as received
    (name and value), the cookies the exchange sets in the session's jar,
    and, for a streamed body, the chunks [iter_content] yields followed by
    what breaks the stream, if anything does. *)
Record response : Type := Response {
  text : string;
  headers : list (string * string);
  set_cookies : list cookie;
  chunks : list (list Byte.byte);
  stream_error : option stream_failure
}.

(** The headers of a response: names are looked up in lower case, and a
    missing name is reported in lower case. *)
Module CaseInsensitiveDict.

Definition store (items : list (string * string)) : gmap string string :=
  foldl (fun m kv => <[str_lower (fst kv) := snd kv]> m) ∅ items.

(** [headers.get(key)] *)
Definition get (items : list (string * string)) (key : string) : option string :=
  store items !! str_lower key.

(** [headers[key]] *)
Definition getitem (items : list (string * string)) (key : string) : result string :=
  match store items !! str_lower key with
  | Some v => Ok v
  | None => Raise (KeyError (str_lower key))
  end.

End CaseInsensitiveDict.

(** The cookie jar of a session. *)
Module RequestsCookieJar.

Definition set_cookie (jar : gmap (string * string * string) string) (c : cookie)
    : gmap (string * string * string) string :=
  <[(ck_domain c, ck_path c, ck_name c) := ck_value c]> jar.

(** The cookies called [name], on any domain and path. *)
Definition named (name : string) (jar : gmap (string * string * string) string)
    : gmap (string * string * string) string :=
  filter (fun kv => snd (fst kv) = name) jar.

(** [jar.get(name)]: the value of the one cookie of that name, [None] when
    there is none or its value is empty, and [CookieConflictError] when
    there are several. *)
Definition get (jar : gmap (string * string * string) string) (name : string)
    : result (option string) :=
  match map_to_list (named name jar) with
  | [] => Ok None
  | [(_, v)] => Ok (if str_falsy v then None else Some v)
  | _ :: _ :: _ => Raise (OtherError "CookieConflictError")
  end.

End RequestsCookieJar.

Inductive reply : Type :=
| Answer (r : response)
| Fail (e : exn).

(** Calls that leave the process, in the order they are made. *)
Inductive event : Type :=
| Requested (r : request)
| Makedirs (dir : string)
| GuessDataset (identifier : string)
| GetSceneId (identifier dataset : string).

Record world : Type := World {
  cookies : gmap (string * string * string) string;   (* self.session.cookies *)
  files : gmap string (list Byte.byte);    (* contents of the files written *)
  pbar_total : Z;                     (* tqdm: total *)
  pbar_n : Z;                         (* tqdm: counter *)
  log : list event
}.

Definition set_cookies_of (w : world) (c : gmap (string * string * string) string)
    : world :=
  World c (files w) (pbar_total w) (pbar_n w) (log w).
Definition set_files (w : world) (f : gmap string (list Byte.byte)) : world :=
  World (cookies w) f (pbar_total w) (pbar_n w) (log w).
Definition set_pbar (w : world) (total n : Z) : world :=
  World (cookies w) (files w) total n (log w).
Definition add_event (w : world) (ev : event) : world :=
  World (cookies w) (files w) (pbar_total w) (pbar_n w) (log w ++ [ev]).

(** State and exceptions. *)
Definition M (A : Type) : Type := world -> result A * world.

#[global] Instance M_ret : MRet M := fun A a w => (Ok a, w).
#[global] Instance M_bind : MBind M := fun A B f c w =>
  match c w with
  | (Ok a, w') => f a w'
  | (Raise e, w') => (Raise e, w')
  end.

Definition raise {A} (e : exn) : M A := fun w => (Raise e, w).
Definition lift {A} (r : result A) : M A := fun w => (r, w).
Definition modify (f : world -> world) : M unit := fun w => (Ok tt, f w).

(** [try: body except requests.exceptions.Timeout: handler] *)
Definition try_except_Timeout {A} (body handler : M A) : M A := fun w =>
  match body w with
  | (Raise RequestsTimeout, w') => handler w'
  | other => other
  end.

(** [d[k]] on a dict *)
Definition dict_getitem (d : gmap string string) (k : string) : result string :=
  match d !! k with
  | Some v => Ok v
  | None => Raise (KeyError k)
  end.

(** [bool(x)] for [x] a string or [None] *)
Definition py_bool (x : option string) : bool :=
  match x with
  | Some v => negb (str_falsy v)
  | None => false
  end.

Definition bytes_falsy (b : list Byte.byte) : bool :=
  match b with [] => true | _ :: _ => false end.

Definition is_Requested_Post (ev : event) : bool :=
  match ev with Requested (Post _ _) => true | _ => false end.
Definition is_Requested_GetStream (ev : event) : bool :=
  match ev with Requested (GetStream _ _) => true | _ => false end.
Definition is_GetSceneId (ev : event) : bool :=
  match ev with GetSceneId _ _ => true | _ => false end.

Definition count_events (p : event -> bool) (l : list event) : nat :=
  length (filter (fun ev => p ev = true) l).

(** ** The class [EarthExplorer] *)

Module EarthExplorer.
Section Methods.

(** The portal: its answer to a request, given the calls made so far. *)
Variable portal : list event -> request -> reply.
(** [landsatxplore.util] *)
Variable guess_dataset : string -> result string.
Variable is_product_id : string -> bool.
(** [API.get_scene_id] of [landsatxplore.api] *)
Variable get_scene_id : string -> string -> result string.
(** The builtin [int], applied to the value of a header or to [None]. *)
Variable py_int : option string -> result Z.
(** [open(path, "wb")]: the name of the [OSError] raised, if the file
    cannot be opened. *)
Variable os_open : string -> option string.

(** [self.session.get], [self.session.post]: the request is logged, the
    cookies of the answer go into the jar. *)
Definition session_request (r : request) : M response := fun w =>
  let w' := add_event w (Requested r) in
  match portal (log w) r with
  | Fail e => (Raise e, w')
  | Answer rsp =>
      (Ok rsp,
       set_cookies_of w'
         (foldl RequestsCookieJar.set_cookie (cookies w') (set_cookies rsp)))
  end.

Definition logged_in : M bool := fun w =>
  match RequestsCookieJar.get (cookies w) "EROS_SSO_production_secure" with
  | Ok eros_sso => (Ok (py_bool eros_sso), w)
  | Raise e => (Raise e, w)
  end.

Definition login (username password : string) : M unit :=
  rsp ← session_request (Get EE_LOGIN_URL);
  tokens ← lift (_get_tokens (text rsp));
  let payload :=
    [ ("username", username); ("password", password);
      ("csrf", fst tokens); ("__ncforminfo", snd tokens) ] in
  _ ← session_request (Post EE_LOGIN_URL payload);
  ok ← logged_in;
  if negb ok then raise (EarthExplorerError "EE: login failed.")
  else mret tt.

Definition logout : M unit :=
  _ ← session_request (Get EE_LOGOUT_URL);
  mret tt.

(** The loop over [r.iter_content]: an empty chunk is passed over, any
    other is appended to the file and moves the bar by [chunk_size]. *)
Fixpoint write_chunks (path : string) (chunk_size : Z) (cs : list (list Byte.byte)) : M unit :=
  match cs with
  | [] => mret tt
  | chunk :: rest =>
      _ ← (if bytes_falsy chunk then mret tt
           else modify (fun w =>
                  set_pbar
                    (set_files w (alter (fun old => old ++ chunk) path (files w)))
                    (pbar_total w) (pbar_n w + chunk_size)));
      write_chunks path chunk_size rest
  end.

(** The body of the [try] block of [_download]. *)
Definition _download_try (url output_dir : string) (timeout chunk_size : Z) : M string :=
  r ← session_request (GetStream url timeout);
  file_size ← lift (py_int (CaseInsensitiveDict.get (headers r) "Content-Length"));
  _ ← modify (fun w => set_pbar w file_size 0);
  disposition ← lift (CaseInsensitiveDict.getitem (headers r) "Content-Disposition");
  local_filename ← lift (index_last (str_split "=" disposition));
  let local_filename := str_remove dquote local_filename in
  let local_filename := os_path_join output_dir local_filename in
  _ ← (match os_open local_filename with
       | Some err => raise (OtherError err)
       | None => modify (fun w => set_files w (<[local_filename := []]> (files w)))
       end);
  _ ← write_chunks local_filename chunk_size (chunks r);
  _ ← (match stream_error r with
       | Some f => raise (iter_content_error f)
       | None => mret tt
       end);
  mret local_filename.

(** The [except] clause of [_download]. *)
Definition _download_except (timeout : Z) : M string :=
  msg ← lift (str_format "Connection timeout after {} seconds." [str_of_int timeout] []);
  raise (EarthExplorerError msg).

Definition _download (url output_dir : string) (timeout chunk_size : Z) : M string :=
  try_except_Timeout
    (_download_try url output_dir timeout chunk_size)
    (_download_except timeout).

Definition download (scene_id output_dir : string) (dataset : option string)
    (timeout : Z) : M string :=
  _ ← modify (fun w => add_event w (Makedirs output_dir));
  dataset ← (match dataset with
             | Some d =>
                 if str_falsy d then
                   _ ← modify (fun w => add_event w (GuessDataset scene_id));
                   lift (guess_dataset scene_id)
                 else mret d
             | None =>
                 _ ← modify (fun w => add_event w (GuessDataset scene_id));
                 lift (guess_dataset scene_id)
             end);
  scene_id ← (if is_product_id scene_id then
                _ ← modify (fun w => add_event w (GetSceneId scene_id dataset));
                lift (get_scene_id scene_id dataset)
              else mret scene_id);
  data_product_id ← lift (dict_getitem DATA_PRODUCTS dataset);
  url ← lift (str_format EE_DOWNLOAD_URL []
                [("data_product_id", data_product_id); ("scene_id", scene_id)]);
  _download url output_dir timeout 1024.

(** *** Reading a run of [download]

    The dataset [download] works with, the scene identifier it puts in the
    URL, and the calls each of the two steps makes. *)
Definition dataset_of (dataset : option string) (scene_id : string) : result string :=
  match dataset with
  | Some d => if str_falsy d then guess_dataset scene_id else Ok d
  | None => guess_dataset scene_id
  end.

Definition dataset_events (dataset : option string) (scene_id : string) : list event :=
  match dataset with
  | Some d => if str_falsy d then [GuessDataset scene_id] else []
  | None => [GuessDataset scene_id]
  end.

Definition scene_of (scene_id dataset : string) : result string :=
  if is_product_id scene_id then get_scene_id scene_id dataset else Ok scene_id.

Definition scene_events (scene_id dataset : string) : list event :=
  if is_product_id scene_id then [GetSceneId scene_id dataset] else [].

Definition prelude_events (scene_id output_dir : string) (dataset : option string)
    (d : string) : list event :=
  Makedirs output_dir :: dataset_events dataset scene_id ++ scene_events scene_id d.

(** *** The constructor

    [requests.session()] gives a session with an empty cookie jar;
    [API(username, password)] is the constructor of [landsatxplore.api],
    which may raise. *)
Variable API : string -> string -> result unit.

Definition __init__ (username password : string) : M unit :=
  _ ← modify (fun w => set_cookies_of w ∅);
  _ ← login username password;
  lift (API username password).

End Methods.
End EarthExplorer.


(** ** Vocabulary of the statements *)

Definition add_events (w : world) (evs : list event) : world := foldl add_event w evs.

(** A computation that leaves the log as it is. *)
Definition keeps_log {A} (c : M A) : Prop := forall w, log (snd (c w)) = log w.

(** The chunks of a stream that are not empty. *)
Definition nonempty_chunks (cs : list (list Byte.byte)) : nat :=
  length (filter (fun c => bytes_falsy c = false) cs).

(** The origin of the portal: [EE_URL] without its final slash. *)
Definition base_url : string := "https://earthexplorer.usgs.gov".

(** The URL of a product of a scene:
    base, /download/, product code, /, scene identifier, /EE/. *)
Definition download_url_of (product_code scene_id : string) : string :=
  base_url +:+ "/download/" +:+ product_code +:+ "/" +:+ scene_id +:+ "/EE/".

Definition SESSION_COOKIE : string := "EROS_SSO_production_secure".

(** [path] is [dir] joined with [name], as a POSIX path: a name that
    starts with a slash stands alone, and so does any name when there is
    no directory; otherwise the name follows the directory, with one slash
    between them unless the directory ends with one. *)
Definition posix_joined (dir name path : string) : Prop :=
  ((exists n, name = "/" +:+ n) -> path = name) /\
  (dir = EmptyString -> path = name) /\
  ((forall n, name <> "/" +:+ n) ->
   forall d, dir = d +:+ "/" -> path = dir +:+ name) /\
  ((forall n, name <> "/" +:+ n) ->
   dir <> EmptyString -> (forall d, dir <> d +:+ "/") ->
   path = dir +:+ "/" +:+ name).

Definition timeout_message (timeout : Z) : string :=
  "Connection timeout after " +:+ str_of_int timeout +:+ " seconds.".

(** The world after [rsp] has answered the request [r]. *)
Definition after_answer (w : world) (r : request) (rsp : response) : world :=
  set_cookies_of (add_event w (Requested r))
    (foldl RequestsCookieJar.set_cookie (cookies w) (set_cookies rsp)).

(** The payload of the login form. *)
Definition login_payload (username password csrf ncform : string)
    : list (string * string) :=
  [ ("username", username); ("password", password);
    ("csrf", csrf); ("__ncforminfo", ncform) ].

(** The text before the value of the attribute [name] in the login form:
    name=, the name in double quotes, a space, value= and a double quote. *)
Definition attr_prefix (name : string) : string :=
  "name=" +:+ DQ +:+ name +:+ DQ +:+ " value=" +:+ DQ.

(** A token the form can carry: not empty, no double quote, no newline. *)
Definition token_ok (t : string) : bool :=
  negb (str_falsy t) && negb (str_contains_char dquote t)
  && negb (str_contains_char newline t).

(** [pre] starts at no position of [a], read in [a +:+ rest]. *)
Fixpoint starts_nowhere (pre a rest : string) : bool :=
  match a with
  | EmptyString => true
  | String c a' =>
      negb (str_startswith pre (String c a' +:+ rest)) && starts_nowhere pre a' rest
  end.

Definition is_GuessDataset (ev : event) : bool :=
  match ev with GuessDataset _ => true | _ => false end.

(** [not dataset] for the optional argument of [download]. *)
Definition dataset_falsy (dataset : option string) : bool :=
  match dataset with
  | Some d => str_falsy d
  | None => true
  end.

(** ** Concrete portals and helpers, for running the model *)

Module Sample.

Definition world0 : world := World ∅ ∅ 0 0 [].

Definition page (body : string) (ck : list cookie) : response :=
  Response body [] ck [] None.

Definition session_cookie (domain value : string) : cookie :=
  Cookie domain "/" SESSION_COOKIE value.

Definition login_page (csrf ncform : string) : string :=
  "<input name=" +:+ DQ +:+ "csrf" +:+ DQ +:+ " value=" +:+ DQ +:+ csrf +:+ DQ +:+ ">"
  +:+ String newline EmptyString
  +:+ "<input name=" +:+ DQ +:+ "__ncforminfo" +:+ DQ
  +:+ " value=" +:+ DQ +:+ ncform +:+ DQ +:+ ">".

(** A scene archive served in chunks [cs], the stream ending with [err]. *)
Definition archive (disposition : string) (cs : list (list Byte.byte))
    (err : option stream_failure) : response :=
  Response EmptyString
    [("Content-Length", "3"); ("Content-Disposition", disposition)]
    [] cs err.

Definition tar_disposition : string :=
  "attachment; filename=" +:+ DQ +:+ "LC08_scene.tar" +:+ DQ.

(** A portal whose login page carries both tokens and that accepts the
    credentials; every download is answered by [rsp]. *)
Definition portal_serving (rsp : reply) (past : list event) (r : request) : reply :=
  match r with
  | Get _ => Answer (page (login_page "abc" "xyz") [])
  | Post _ _ =>
      Answer (page EmptyString [session_cookie "ers.cr.usgs.gov" "session-token"])
  | GetStream _ _ => rsp
  end.

(** A portal whose login page has no form. *)
Definition portal_no_form (past : list event) (r : request) : reply :=
  Answer (page "<html><body>Service unavailable</body></html>" []).

(** Decimal digits only; anything else is refused. *)
Fixpoint digits_value (acc : Z) (s : string) : result Z :=
  match s with
  | EmptyString => Ok acc
  | String c s' =>
      let n := Z.of_nat (nat_of_ascii c) - 48 in
      if (0 <=? n) && (n <=? 9) then digits_value (10 * acc + n) s'
      else Raise ValueError
  end.

Definition int_of_header (h : option string) : result Z :=
  match h with
  | None => Raise TypeError
  | Some EmptyString => Raise ValueError
  | Some s => digits_value 0 s
  end.

Definition guess_landsat8 (identifier : string) : result string := Ok "landsat_ot_c2_l1".
Definition guess_fails (identifier : string) : result string :=
  Raise (OtherError "LandsatxploreError").
Definition product_id_by_length (identifier : string) : bool :=
  Nat.eqb (String.length identifier) 40.
Definition resolver_ok (identifier dataset : string) : result string :=
  Ok "LC80100172015082LGN00".
Definition resolver_fails (identifier dataset : string) : result string :=
  Raise (OtherError "USGSError").

(** [open] fails on a path that names a directory. *)
Definition open_unless_directory (path : string) : option string :=
  if str_endswith_char "/" path then Some "IsADirectoryError" else None.

(** Archives: two chunks; a header without the equals sign; a body whose
    reading times out after one chunk; header names in lower case. *)
Definition tar_archive : response :=
  archive tar_disposition [[Byte.x4c; Byte.x43]; [Byte.x30]] None.
Definition plain_archive : response :=
  archive (DQ +:+ "scene.tar" +:+ DQ) [[Byte.x4c; Byte.x43; Byte.x30]] None.
Definition stalled_archive : response :=
  archive tar_disposition [[Byte.x4c]] (Some ReadTimedOut).
Definition lowercase_archive : response :=
  Response EmptyString
    [("content-length", "3"); ("content-disposition", tar_disposition)]
    [] [[Byte.x4c; Byte.x43; Byte.x30]] None.

Definition scene_id_sample : string := "LC80100172015082LGN00".
Definition product_id_sample : string := "LC08_L1TP_010017_20150323_20170228_01_T1".

Definition api_ok (username password : string) : result unit := Ok tt.

(** A portal that answers the login form without setting the cookie. *)
Definition portal_rejecting (past : list event) (r : request) : reply :=
  match r with
  | Get _ => Answer (page (login_page "abc" "xyz") [])
  | Post _ _ => Answer (page EmptyString [Cookie "ers.cr.usgs.gov" "/" "PHPSESSID" "q1"])
  | GetStream _ _ => Fail RequestsTimeout
  end.

(** A portal that sets the session cookie twice, on two domains. *)
Definition portal_conflicting (past : list event) (r : request) : reply :=
  match r with
  | Get _ => Answer (page (login_page "abc" "xyz") [])
  | Post _ _ =>
      Answer (page EmptyString
                [ session_cookie "ers.cr.usgs.gov" "a";
                  session_cookie ".usgs.gov" "b" ])
  | GetStream _ _ => Fail RequestsTimeout
  end.

(** A jar with the session cookie on one domain, and on two. *)
Definition jar_logged_in : gmap (string * string * string) string :=
  RequestsCookieJar.set_cookie
    (RequestsCookieJar.set_cookie ∅ (Cookie ".usgs.gov" "/" "_ga" "GA1.2"))
    (session_cookie "ers.cr.usgs.gov" "session-token").

(** Archives: no Content-Disposition; a file name that is an absolute
    path. *)
Definition nameless_archive : response :=
  Response EmptyString [("Content-Length", "3")] [] [[Byte.x4c]] None.
Definition absolute_archive : response :=
  archive ("attachment; filename=" +:+ DQ +:+ "/tmp/evil.tar" +:+ DQ) [[Byte.x4c]] None.

End Sample.

(** * Properties *)

(** ** Strings *)

Lemma str_falsy_false_iff (s : string) : str_falsy s = false <-> s <> EmptyString.
Proof. destruct s; simpl; split; intros H; try congruence; discriminate. Qed.

Lemma str_split_not_nil (sep : ascii) (s : string) : str_split sep s <> [].
Proof.
  destruct s as [|c s]; simpl; [discriminate|].
  destruct (Ascii.eqb c sep); [discriminate|].
  destruct (str_split sep s); discriminate.
Qed.

Lemma index_last_total {A} (l : list A) : l <> [] -> exists x, index_last l = Ok x.
Proof.
  induction l as [|x l IH]; [congruence|]. intros _.
  destruct l as [|y l]; [exists x; reflexivity|].
  destruct IH as [z Hz]; [discriminate|]. exists z. exact Hz.
Qed.

Lemma index_last_cons {A} (x : A) (l : list A) :
  l <> [] -> index_last (x :: l) = index_last l.
Proof. destruct l; [congruence|reflexivity]. Qed.

(** Without the separator the string is the only piece. *)
Lemma str_split_no_sep (sep : ascii) (s : string) :
  str_contains_char sep s = false -> str_split sep s = [s].
Proof.
  induction s as [|c s IH]; simpl; [reflexivity|].
  destruct (Ascii.eqb c sep); simpl; [discriminate|].
  intros H. rewrite (IH H). reflexivity.
Qed.

(** A string holding the separator has at least two pieces. *)
Lemma str_split_two_pieces (sep : ascii) (pre suf : string) :
  exists p q ps, str_split sep (pre +:+ String sep suf) = p :: q :: ps.
Proof.
  induction pre as [|c pre IH]; simpl.
  - rewrite Ascii.eqb_refl.
    destruct (str_split sep suf) as [|q ps] eqn:E;
      [exfalso; exact (str_split_not_nil _ _ E)|].
    exists EmptyString, q, ps. reflexivity.
  - destruct IH as (p & q & ps & ->).
    destruct (Ascii.eqb c sep); eauto.
Qed.

(** The last piece is what follows the last separator. *)
Lemma str_split_last (sep : ascii) (pre suf : string) :
  str_contains_char sep suf = false ->
  index_last (str_split sep (pre +:+ String sep suf)) = Ok suf.
Proof.
  intros Hsuf. induction pre as [|c pre IH]; simpl.
  - rewrite Ascii.eqb_refl, (str_split_no_sep _ _ Hsuf). reflexivity.
  - destruct (str_split_two_pieces sep pre suf) as (p & q & ps & E).
    rewrite E in IH |- *.
    destruct (Ascii.eqb c sep); exact IH.
Qed.

(** ** Regular expressions: the group captures at least one character *)

Lemma re_match_group_nonempty (p : Re.regex) :
  In Re.LazyGroup p ->
  forall s g n, Re.re_match p s = Some (g, n) -> str_falsy g = false.
Proof.
  induction p as [|it p IH]; intros Hin s g n; [destruct Hin|].
  destruct it as [c|].
  - destruct Hin as [Hin|Hin]; [discriminate|].
    simpl. destruct s as [|a s]; [discriminate|].
    destruct (Ascii.eqb a c); [|discriminate].
    destruct (Re.re_match p s) as [[g' n']|] eqn:E; [|discriminate].
    intros H. injection H as <- _. exact (IH Hin _ _ _ E).
  - clear IH Hin. simpl. revert g n.
    induction s as [|a s IHs]; intros g n; [discriminate|].
    destruct (Ascii.eqb a newline); [discriminate|].
    destruct (Re.re_match p s) as [[g' n']|].
    + intros H. injection H as <- _. reflexivity.
    + match goal with |- context [match ?x with Some _ => _ | None => _ end] =>
        destruct x as [[g' n']|] end; [|discriminate].
      intros H. injection H as <- _. reflexivity.
Qed.

Lemma findall_from_nonempty (p : Re.regex) :
  In Re.LazyGroup p ->
  forall s skip g, In g (Re.findall_from p skip s) -> str_falsy g = false.
Proof.
  intros Hin. induction s as [|a s IH]; intros skip g; simpl.
  - destruct skip; [|intros []].
    destruct (Re.re_match p EmptyString) as [[g' n']|] eqn:E; [|intros []].
    intros [<-|[]]. exact (re_match_group_nonempty p Hin _ _ _ E).
  - destruct skip as [|k]; [|apply IH].
    destruct (Re.re_match p (String a s)) as [[g' n']|] eqn:E; [|apply IH].
    intros [<-|H]; [exact (re_match_group_nonempty p Hin _ _ _ E)|].
    exact (IH _ _ H).
Qed.

Lemma csrf_pattern_has_group : In Re.LazyGroup csrf_pattern.
Proof. unfold csrf_pattern. apply in_or_app. right. left. reflexivity. Qed.

Lemma ncform_pattern_has_group : In Re.LazyGroup ncform_pattern.
Proof. unfold ncform_pattern. apply in_or_app. right. left. reflexivity. Qed.

(** Whenever the indexing at position 0 succeeds the token is not empty. *)
Lemma first_match_nonempty (p : Re.regex) (body tok : string) :
  In Re.LazyGroup p ->
  index_first (Re.findall p body) = Ok tok -> str_falsy tok = false.
Proof.
  intros Hin H. unfold Re.findall in H.
  destruct (Re.findall_from p 0 body) as [|g l] eqn:E; [discriminate|].
  injection H as <-.
  apply (findall_from_nonempty p Hin body O). rewrite E. left. reflexivity.
Qed.

(** C9. In [_get_tokens] the two branches raising the named-token
    [EarthExplorerError] are never taken: either one of the two indexings
    at position 0 fails, and [_get_tokens] raises [IndexError], or both
    succeed, both tokens are non-empty strings and [_get_tokens] returns
    them. *)
Theorem C9_get_tokens_empty_token_branches_unreachable (body : string) :
  ((index_first (Re.findall csrf_pattern body) = Raise IndexError \/
    index_first (Re.findall ncform_pattern body) = Raise IndexError) /\
   _get_tokens body = Raise IndexError)
  \/
  (exists csrf ncform : string,
     index_first (Re.findall csrf_pattern body) = Ok csrf /\
     index_first (Re.findall ncform_pattern body) = Ok ncform /\
     csrf <> EmptyString /\ ncform <> EmptyString /\
     _get_tokens body = Ok (csrf, ncform)).
Proof.
  unfold _get_tokens.
  destruct (index_first (Re.findall csrf_pattern body)) as [csrf|e] eqn:E1.
  - destruct (index_first (Re.findall ncform_pattern body)) as [ncform|e] eqn:E2.
    + right. exists csrf, ncform.
      pose proof (first_match_nonempty _ _ _ csrf_pattern_has_group E1) as H1.
      pose proof (first_match_nonempty _ _ _ ncform_pattern_has_group E2) as H2.
      rewrite H1, H2. repeat split; try reflexivity; now apply str_falsy_false_iff.
    + left. assert (e = IndexError) as ->.
      { unfold index_first in E2. destruct (Re.findall ncform_pattern body); congruence. }
      split; [right|]; reflexivity.
  - left. assert (e = IndexError) as ->.
    { unfold index_first in E1. destruct (Re.findall csrf_pattern body); congruence. }
    split; [left|]; reflexivity.
Qed.

(** ** The monad and the log *)

Lemma keeps_log_ret {A} (a : A) : keeps_log (mret a).
Proof. intros w. reflexivity. Qed.

Lemma keeps_log_raise {A} (e : exn) : keeps_log (@raise A e).
Proof. intros w. reflexivity. Qed.

Lemma keeps_log_lift {A} (r : result A) : keeps_log (lift r).
Proof. intros w. reflexivity. Qed.

Lemma keeps_log_modify (f : world -> world) :
  (forall w, log (f w) = log w) -> keeps_log (modify f).
Proof. intros H w. apply H. Qed.

Lemma keeps_log_bind {A B} (c : M A) (f : A -> M B) :
  keeps_log c -> (forall a, keeps_log (f a)) -> keeps_log (c ≫= f).
Proof.
  intros Hc Hf w. unfold mbind, M_bind. specialize (Hc w).
  destruct (c w) as [[a|e] w']; simpl in *; [|exact Hc].
  rewrite (Hf a w'). exact Hc.
Qed.

Lemma keeps_log_try {A} (body handler : M A) :
  keeps_log body -> keeps_log handler -> keeps_log (try_except_Timeout body handler).
Proof.
  intros Hb Hh w. unfold try_except_Timeout. specialize (Hb w).
  destruct (body w) as [[a|e] w']; simpl in *; [exact Hb|].
  destruct e; simpl; try exact Hb. rewrite (Hh w'). exact Hb.
Qed.

Create HintDb keeps.
#[local] Hint Resolve keeps_log_ret keeps_log_raise keeps_log_lift keeps_log_modify
  keeps_log_bind keeps_log_try : keeps.

Section Correctness.

Variable portal : list event -> request -> reply.
Variable guess_dataset : string -> result string.
Variable is_product_id : string -> bool.
Variable get_scene_id : string -> string -> result string.
Variable py_int : option string -> result Z.
Variable os_open : string -> option string.

Abbreviation session_request := (EarthExplorer.session_request portal).
Abbreviation login := (EarthExplorer.login portal).
Abbreviation _download_try := (EarthExplorer._download_try portal py_int os_open).
Abbreviation _download := (EarthExplorer._download portal py_int os_open).
Abbreviation download :=
  (EarthExplorer.download portal guess_dataset is_product_id get_scene_id py_int os_open).

Lemma session_request_log (r : request) (w : world) :
  log (snd (session_request r w)) = log w ++ [Requested r].
Proof. unfold EarthExplorer.session_request. destruct (portal (log w) r); reflexivity. Qed.

Lemma bind_session_request_log {A} (r : request) (k : response -> M A) :
  (forall rsp, keeps_log (k rsp)) ->
  forall w, log (snd ((session_request r ≫= k) w)) = log w ++ [Requested r].
Proof.
  intros Hk w. unfold mbind, M_bind.
  pose proof (session_request_log r w) as H.
  destruct (session_request r w) as [[rsp|e] w']; simpl in *; [|exact H].
  rewrite (Hk rsp w'). exact H.
Qed.

Lemma keeps_log_write_chunks (path : string) (size : Z) (cs : list (list Byte.byte)) :
  keeps_log (EarthExplorer.write_chunks path size cs).
Proof.
  induction cs as [|c cs IH]; simpl; [apply keeps_log_ret|].
  apply keeps_log_bind; [|intros _; exact IH].
  destruct (bytes_falsy c); [apply keeps_log_ret|].
  apply keeps_log_modify. reflexivity.
Qed.

Lemma keeps_log_download_except (timeout : Z) : keeps_log (EarthExplorer._download_except timeout).
Proof. unfold EarthExplorer._download_except. auto with keeps. Qed.

(** [_download] sends one request, whatever comes back. *)
Lemma _download_try_log (url output_dir : string) (timeout chunk_size : Z) (w : world) :
  log (snd (_download_try url output_dir timeout chunk_size w))
  = log w ++ [Requested (GetStream url timeout)].
Proof.
  unfold EarthExplorer._download_try. apply bind_session_request_log. intros rsp.
  repeat (apply keeps_log_bind; [|intros ?]);
    try destruct (stream_error rsp);
    try match goal with |- context [os_open ?p] => destruct (os_open p) end;
    auto using keeps_log_write_chunks with keeps.
Qed.

Lemma _download_log (url output_dir : string) (timeout chunk_size : Z) (w : world) :
  log (snd (_download url output_dir timeout chunk_size w))
  = log w ++ [Requested (GetStream url timeout)].
Proof.
  unfold EarthExplorer._download, try_except_Timeout.
  pose proof (_download_try_log url output_dir timeout chunk_size w) as H.
  destruct (_download_try url output_dir timeout chunk_size w) as [[a|e] w'];
    simpl in *; [exact H|].
  destruct e; exact H.
Qed.

(** *** [login] *)

(** A login page without one of the two attributes: [login] stops at the
    indexing, after the GET and before the POST. *)
Lemma login_token_missing (username password : string) (w : world) (rsp : response) :
  portal (log w) (Get EE_LOGIN_URL) = Answer rsp ->
  Re.findall csrf_pattern (text rsp) = [] \/ Re.findall ncform_pattern (text rsp) = [] ->
  fst (login username password w) = Raise IndexError /\
  log (snd (login username password w)) = log w ++ [Requested (Get EE_LOGIN_URL)].
Proof.
  intros Hp Hmiss.
  assert (Htok : _get_tokens (text rsp) = Raise IndexError).
  { unfold _get_tokens. destruct Hmiss as [E|E]; rewrite E; [reflexivity|].
    destruct (Re.findall csrf_pattern (text rsp)); reflexivity. }
  unfold EarthExplorer.login, mbind, M_bind, EarthExplorer.session_request.
  rewrite Hp. cbn [lift]. rewrite Htok. split; reflexivity.
Qed.


(** *** The loop over the chunks *)

Lemma nonempty_chunks_cons (c : list Byte.byte) (cs : list (list Byte.byte)) :
  nonempty_chunks (c :: cs)
  = if bytes_falsy c then nonempty_chunks cs else S (nonempty_chunks cs).
Proof.
  destruct c; reflexivity.
Qed.

Lemma concat_cons_falsy (c : list Byte.byte) (cs : list (list Byte.byte)) :
  bytes_falsy c = true -> concat (c :: cs) = concat cs.
Proof. destruct c; [reflexivity|discriminate]. Qed.

Lemma write_chunks_spec (path : string) (size : Z) (cs : list (list Byte.byte)) :
  forall (w : world) (old : list Byte.byte),
    files w !! path = Some old ->
    exists w',
      EarthExplorer.write_chunks path size cs w = (Ok tt, w') /\
      files w' !! path = Some (old ++ concat cs) /\
      pbar_n w' = pbar_n w + size * Z.of_nat (nonempty_chunks cs) /\
      pbar_total w' = pbar_total w /\
      log w' = log w /\
      cookies w' = cookies w.
Proof.
  induction cs as [|c cs IH]; intros w old Hold.
  - exists w. simpl. rewrite app_nil_r. repeat split; try assumption.
    unfold nonempty_chunks. simpl. lia.
  - cbn [EarthExplorer.write_chunks]. unfold mbind, M_bind.
    rewrite nonempty_chunks_cons.
    destruct (bytes_falsy c) eqn:Ec.
    + cbn [mret M_ret]. rewrite (concat_cons_falsy _ _ Ec). exact (IH w old Hold).
    + cbn [modify].
      set (w1 := set_pbar _ _ _).
      destruct (IH w1 (old ++ c)) as (w' & Hrun & Hf & Hn & Ht & Hl & Hc).
      { subst w1. cbn [files set_pbar set_files].
        rewrite lookup_alter_eq, Hold. reflexivity. }
      exists w'. rewrite Hrun. repeat split; try assumption.
      * rewrite Hf. simpl. rewrite <- app_assoc. reflexivity.
      * rewrite Hn. subst w1. cbn [pbar_n set_pbar]. lia.
Qed.

(** *** [_download] when the portal answers *)

Lemma getitem_of_get (items : list (string * string)) (key v : string) :
  CaseInsensitiveDict.get items key = Some v ->
  CaseInsensitiveDict.getitem items key = Ok v.
Proof.
  unfold CaseInsensitiveDict.get, CaseInsensitiveDict.getitem. intros ->. reflexivity.
Qed.

Lemma _download_try_answer (url output_dir : string) (timeout chunk_size : Z)
    (w : world) (r : response) (file_size : Z) (disposition piece : string) :
  portal (log w) (GetStream url timeout) = Answer r ->
  py_int (CaseInsensitiveDict.get (headers r) "Content-Length") = Ok file_size ->
  CaseInsensitiveDict.get (headers r) "Content-Disposition" = Some disposition ->
  index_last (str_split "=" disposition) = Ok piece ->
  os_open (os_path_join output_dir (str_remove dquote piece)) = None ->
  exists w',
    _download_try url output_dir timeout chunk_size w
    = (match stream_error r with
       | Some f => Raise (iter_content_error f)
       | None => Ok (os_path_join output_dir (str_remove dquote piece))
       end, w') /\
    files w' !! os_path_join output_dir (str_remove dquote piece)
    = Some (concat (chunks r)) /\
    pbar_n w' = chunk_size * Z.of_nat (nonempty_chunks (chunks r)) /\
    pbar_total w' = file_size.
Proof.
  intros Hp Hint Hdisp Hpiece Hopen.
  unfold EarthExplorer._download_try, mbind, M_bind, EarthExplorer.session_request.
  rewrite Hp. cbn [lift modify]. rewrite Hint, (getitem_of_get _ _ _ Hdisp), Hpiece, Hopen.
  set (path := os_path_join output_dir (str_remove dquote piece)).
  cbn [modify].
  set (w1 := set_files _ _).
  destruct (write_chunks_spec path chunk_size (chunks r) w1 [])
    as (w' & Hrun & Hf & Hn & Ht & _ & _).
  { subst w1. cbn [files set_files]. apply lookup_insert_eq. }
  rewrite Hrun. exists w'.
  split; [destruct (stream_error r); reflexivity|].
  split; [exact Hf|]. split; [|exact Ht].
  rewrite Hn. subst w1. cbn [pbar_n set_files set_pbar]. lia.
Qed.

Lemma _download_of_try (url output_dir : string) (timeout chunk_size : Z) (w : world) :
  _download url output_dir timeout chunk_size w
  = match _download_try url output_dir timeout chunk_size w with
    | (Raise RequestsTimeout, w') => (Raise (EarthExplorerError (timeout_message timeout)), w')
    | other => other
    end.
Proof.
  unfold EarthExplorer._download, try_except_Timeout.
  destruct (_download_try url output_dir timeout chunk_size w) as [[a|e] w'];
    [reflexivity|].
  destruct e; reflexivity.
Qed.

(** *** [download] up to the request *)

Lemma log_add_events (w : world) (evs : list event) :
  log (add_events w evs) = log w ++ evs.
Proof.
  revert w. induction evs as [|ev evs IH]; intros w; simpl.
  - symmetry. apply app_nil_r.
  - unfold add_events in IH. rewrite IH. simpl. rewrite <- app_assoc. reflexivity.
Qed.

Lemma format_download_url (product_code scene_id : string) :
  str_format EE_DOWNLOAD_URL []
    [("data_product_id", product_code); ("scene_id", scene_id)]
  = Ok (download_url_of product_code scene_id).
Proof. reflexivity. Qed.

Abbreviation dataset_of := (EarthExplorer.dataset_of guess_dataset).
Abbreviation scene_of := (EarthExplorer.scene_of is_product_id get_scene_id).
Abbreviation scene_events := (EarthExplorer.scene_events is_product_id).
Abbreviation prelude_events := (EarthExplorer.prelude_events is_product_id).

Lemma download_cases (scene_id output_dir : string) (dataset : option string)
    (timeout : Z) (w : world) :
  download scene_id output_dir dataset timeout w
  = match dataset_of dataset scene_id with
    | Raise e =>
        (Raise e,
         add_events w (Makedirs output_dir :: EarthExplorer.dataset_events dataset scene_id))
    | Ok d =>
        let w1 := add_events w (prelude_events scene_id output_dir dataset d) in
        match scene_of scene_id d with
        | Raise e => (Raise e, w1)
        | Ok sid =>
            match DATA_PRODUCTS !! d with
            | None => (Raise (KeyError d), w1)
            | Some code => _download (download_url_of code sid) output_dir timeout 1024 w1
            end
        end
    end.
Proof.
  unfold EarthExplorer.download, EarthExplorer.dataset_of, EarthExplorer.scene_of,
    EarthExplorer.prelude_events, EarthExplorer.dataset_events,
    EarthExplorer.scene_events, mbind, M_bind, dict_getitem.
  cbn [modify lift mret M_ret].
  destruct dataset as [d0|]; [destruct (str_falsy d0)|];
    cbn [modify lift mret M_ret];
    try (destruct (guess_dataset scene_id) as [d|e]; [|reflexivity]);
    destruct (is_product_id scene_id); cbn [modify lift mret M_ret];
    try (match goal with |- context [get_scene_id ?a ?b] =>
           destruct (get_scene_id a b) as [sid|e]; [|reflexivity] end);
    match goal with |- context [DATA_PRODUCTS !! ?d] =>
      destruct (DATA_PRODUCTS !! d) as [code|]; reflexivity end.
Qed.

Lemma count_events_app (p : event -> bool) (l1 l2 : list event) :
  count_events p (l1 ++ l2) = (count_events p l1 + count_events p l2)%nat.
Proof. unfold count_events. rewrite filter_app. apply length_app. Qed.

Lemma count_events_cons (p : event -> bool) (ev : event) (l : list event) :
  count_events p (ev :: l) = ((if p ev then 1 else 0) + count_events p l)%nat.
Proof.
  unfold count_events. rewrite filter_cons.
  destruct (p ev); [rewrite decide_True by reflexivity|rewrite decide_False by discriminate];
    reflexivity.
Qed.

Lemma count_dataset_events (p : event -> bool) (dataset : option string)
    (scene_id : string) :
  p (GuessDataset scene_id) = false ->
  count_events p (EarthExplorer.dataset_events dataset scene_id) = 0%nat.
Proof.
  intros Hp. unfold EarthExplorer.dataset_events, count_events.
  destruct dataset as [d0|]; [destruct (str_falsy d0)|]; try reflexivity;
    rewrite filter_cons, decide_False by (rewrite Hp; discriminate); reflexivity.
Qed.

(** *** Claims on [download] and [_download] *)

(** C3. When the dataset is in [DATA_PRODUCTS], with product code [code],
    and the scene identifier resolves to [sid], [download] formats the
    URL base/download/code/sid/EE/, hands it to [_download], and that URL
    is the one requested. *)
Theorem C3_download_builds_product_url (scene_id output_dir : string)
    (dataset : option string) (timeout : Z) (w : world) (d sid code : string) :
  dataset_of dataset scene_id = Ok d ->
  scene_of scene_id d = Ok sid ->
  DATA_PRODUCTS !! d = Some code ->
  str_format EE_DOWNLOAD_URL [] [("data_product_id", code); ("scene_id", sid)]
  = Ok (base_url +:+ "/download/" +:+ code +:+ "/" +:+ sid +:+ "/EE/") /\
  download scene_id output_dir dataset timeout w
  = _download (base_url +:+ "/download/" +:+ code +:+ "/" +:+ sid +:+ "/EE/")
      output_dir timeout 1024
      (add_events w (prelude_events scene_id output_dir dataset d)) /\
  log (snd (download scene_id output_dir dataset timeout w))
  = log w ++ prelude_events scene_id output_dir dataset d
      ++ [Requested (GetStream
            (base_url +:+ "/download/" +:+ code +:+ "/" +:+ sid +:+ "/EE/") timeout)].
Proof.
  intros Hd Hs Hc.
  split; [apply format_download_url|].
  rewrite download_cases, Hd. cbn zeta. rewrite Hs, Hc.
  split; [reflexivity|].
  rewrite _download_log, log_add_events, <- app_assoc. reflexivity.
Qed.

(** C4. The calls [download] adds to the log.  When the dataset is known
    (given, or guessed), a product identifier makes exactly one call to
    [get_scene_id], on that identifier and dataset, and nothing is
    requested before it: what follows is at most the one request of the
    URL built from the identifier the call returned.  An identifier that
    is not a product identifier makes no call to [get_scene_id].  When the
    dataset cannot be guessed [download] stops there, before the URL, and
    nothing is called. *)
Theorem C4_resolver_called_once_before_url (scene_id output_dir : string)
    (dataset : option string) (timeout : Z) (w : world) :
  exists added : list event,
    log (snd (download scene_id output_dir dataset timeout w)) = log w ++ added /\
    match dataset_of dataset scene_id with
    | Ok d =>
        if is_product_id scene_id then
          count_events is_GetSceneId added = 1%nat /\
          exists tail : list event,
            added = Makedirs output_dir :: EarthExplorer.dataset_events dataset scene_id
                      ++ GetSceneId scene_id d :: tail /\
            (tail = [] \/
             exists sid code : string,
               get_scene_id scene_id d = Ok sid /\
               DATA_PRODUCTS !! d = Some code /\
               tail = [Requested (GetStream (download_url_of code sid) timeout)])
        else count_events is_GetSceneId added = 0%nat
    | Raise e =>
        fst (download scene_id output_dir dataset timeout w) = Raise e /\
        count_events is_GetSceneId added = 0%nat /\
        count_events is_Requested_GetStream added = 0%nat
    end.
Proof.
  rewrite download_cases.
  pose proof (count_dataset_events is_GetSceneId dataset scene_id eq_refl) as Hde.
  destruct (dataset_of dataset scene_id) as [d|e].
  - cbn zeta. unfold EarthExplorer.prelude_events, EarthExplorer.scene_of,
      EarthExplorer.scene_events.
    destruct (is_product_id scene_id).
    + assert (Hone : forall tail, count_events is_GetSceneId tail = 0%nat ->
                count_events is_GetSceneId
                  (Makedirs output_dir :: EarthExplorer.dataset_events dataset scene_id
                     ++ GetSceneId scene_id d :: tail) = 1%nat).
      { intros tail Ht.
        rewrite count_events_cons, count_events_app, count_events_cons, Hde, Ht.
        reflexivity. }
      destruct (get_scene_id scene_id d) as [sid|e];
        [destruct (DATA_PRODUCTS !! d) as [code|] eqn:Hc|].
      * exists (Makedirs output_dir :: EarthExplorer.dataset_events dataset scene_id
                  ++ GetSceneId scene_id d
                  :: [Requested (GetStream (download_url_of code sid) timeout)]).
        rewrite _download_log, log_add_events, <- app_assoc.
        split; [cbn [app]; rewrite <- app_assoc; reflexivity|].
        split; [apply Hone; reflexivity|].
        eexists. split; [reflexivity|]. right. exists sid, code. auto.
      * exists (Makedirs output_dir :: EarthExplorer.dataset_events dataset scene_id
                  ++ GetSceneId scene_id d :: []).
        cbn [snd]. rewrite log_add_events. split; [reflexivity|].
        split; [apply Hone; reflexivity|].
        exists []. split; [reflexivity|]. left. reflexivity.
      * exists (Makedirs output_dir :: EarthExplorer.dataset_events dataset scene_id
                  ++ GetSceneId scene_id d :: []).
        cbn [snd]. rewrite log_add_events. split; [reflexivity|].
        split; [apply Hone; reflexivity|].
        exists []. split; [reflexivity|]. left. reflexivity.
    + destruct (DATA_PRODUCTS !! d) as [code|].
      * eexists. rewrite _download_log, log_add_events, <- app_assoc.
        split; [reflexivity|].
        cbn [app].
        rewrite count_events_cons, !count_events_app, Hde. reflexivity.
      * eexists. cbn [snd]. rewrite log_add_events. split; [reflexivity|].
        rewrite count_events_cons, count_events_app, Hde. reflexivity.
  - eexists. cbn [snd fst]. rewrite log_add_events.
    split; [reflexivity|]. split; [reflexivity|].
    rewrite !count_events_cons, Hde,
      (count_dataset_events is_Requested_GetStream dataset scene_id eq_refl).
    split; reflexivity.
Qed.

(** *** The file name and the path, in plain terms *)

Lemma str_remove_filter (c : ascii) (s : string) :
  list_ascii_of_string (str_remove c s)
  = List.filter (fun a => negb (Ascii.eqb a c)) (list_ascii_of_string s).
Proof.
  induction s as [|a s IH]; [reflexivity|].
  simpl. destruct (Ascii.eqb a c); simpl; [exact IH|]. rewrite IH. reflexivity.
Qed.

Lemma str_of_filter (c : ascii) (s name : string) :
  list_ascii_of_string name
  = List.filter (fun a => negb (Ascii.eqb a c)) (list_ascii_of_string s) ->
  str_remove c s = name.
Proof.
  intros H. rewrite <- (string_of_list_ascii_of_string name), H, <- str_remove_filter.
  symmetry. apply string_of_list_ascii_of_string.
Qed.

Lemma str_contains_char_In (c : ascii) (s : string) :
  ~ In c (list_ascii_of_string s) -> str_contains_char c s = false.
Proof.
  induction s as [|a s IH]; [reflexivity|]. simpl. intros H.
  destruct (Ascii.eqb_spec a c) as [->|_]; [exfalso; apply H; left; reflexivity|].
  apply IH. intros Hin. apply H. right. exact Hin.
Qed.

Lemma str_startswith_slash (name : string) :
  str_startswith "/" name = true <-> exists n, name = "/" +:+ n.
Proof.
  split.
  - destruct name as [|a n]; [discriminate|]. cbn [str_startswith].
    destruct (Ascii.eqb_spec "/" a) as [<-|_]; intros H;
      [exists n; reflexivity|discriminate H].
  - intros [n ->]. reflexivity.
Qed.

Lemma str_endswith_slash (dir : string) :
  str_endswith_char "/" dir = true <-> exists d, dir = d +:+ "/".
Proof.
  split.
  - induction dir as [|a dir IH]; [discriminate|].
    destruct dir as [|b dir].
    + cbn [str_endswith_char]. destruct (Ascii.eqb_spec a "/") as [->|_]; intros H;
        [exists EmptyString; reflexivity|discriminate H].
    + intros H. destruct (IH H) as [d Hd]. exists (String a d).
      rewrite Hd. reflexivity.
  - intros [d ->]. induction d as [|a d IH]; [reflexivity|].
    change (String a d +:+ "/") with (String a (d +:+ "/")).
    destruct (d +:+ "/") eqn:E; [destruct d; discriminate|exact IH].
Qed.

(** [os_path_join] joins as a POSIX path. *)
Lemma os_path_join_joined (dir name : string) :
  posix_joined dir name (os_path_join dir name).
Proof.
  unfold posix_joined, os_path_join.
  destruct (str_startswith "/" name) eqn:Hs; cbn [orb].
  - apply str_startswith_slash in Hs. destruct Hs as [n Hn].
    split; [reflexivity|]. split; [reflexivity|].
    split; intros Hno; exfalso; exact (Hno n Hn).
  - assert (Hno : ~ exists n, name = "/" +:+ n).
    { intros H. apply str_startswith_slash in H. congruence. }
    destruct dir as [|a dir']; cbn [str_falsy].
    + split; [reflexivity|]. split; [reflexivity|]. split.
      * intros _ d Hd. destruct d; discriminate Hd.
      * intros _ H. congruence.
    + destruct (str_endswith_char "/" (String a dir')) eqn:He.
      * apply str_endswith_slash in He. destruct He as [d0 Hd0].
        split; [intros H; exfalso; exact (Hno H)|].
        split; [intros H; discriminate H|].
        split; [intros _ d _; reflexivity|].
        intros _ _ Hd. exfalso. exact (Hd d0 Hd0).
      * assert (Hnd : ~ exists d, String a dir' = d +:+ "/").
        { intros H. apply str_endswith_slash in H. congruence. }
        split; [intros H; exfalso; exact (Hno H)|].
        split; [intros H; discriminate H|].
        split; [intros _ d Hd; exfalso; apply Hnd; exists d; exact Hd|].
        intros _ _ _. reflexivity.
Qed.

(** The last piece of a header value: the value itself, or what follows
    its last equals sign. *)
Lemma last_piece (disposition suf : string) :
  ~ In "="%char (list_ascii_of_string suf) ->
  disposition = suf \/ (exists pre, disposition = pre +:+ "=" +:+ suf) ->
  index_last (str_split "=" disposition) = Ok suf.
Proof.
  intros Hno [->|[pre ->]].
  - rewrite (str_split_no_sep _ _ (str_contains_char_In _ _ Hno)). reflexivity.
  - apply (str_split_last "=" pre suf), str_contains_char_In, Hno.
Qed.

(** A run of [_download] on an answer with both headers, the file being
    opened: the path, the file and the bar. *)
Lemma _download_try_named (url output_dir : string) (timeout chunk_size : Z)
    (w : world) (r : response) (file_size : Z) (disposition suf name : string) :
  portal (log w) (GetStream url timeout) = Answer r ->
  py_int (CaseInsensitiveDict.get (headers r) "Content-Length") = Ok file_size ->
  CaseInsensitiveDict.get (headers r) "Content-Disposition" = Some disposition ->
  disposition = suf \/ (exists pre, disposition = pre +:+ "=" +:+ suf) ->
  ~ In "="%char (list_ascii_of_string suf) ->
  list_ascii_of_string name
  = List.filter (fun c => negb (Ascii.eqb c "034"%char)) (list_ascii_of_string suf) ->
  (forall path, posix_joined output_dir name path -> os_open path = None) ->
  exists path w',
    posix_joined output_dir name path /\
    _download_try url output_dir timeout chunk_size w
    = (match stream_error r with
       | Some f => Raise (iter_content_error f)
       | None => Ok path
       end, w') /\
    files w' !! path = Some (concat (chunks r)) /\
    pbar_n w' = chunk_size * Z.of_nat (nonempty_chunks (chunks r)).
Proof.
  intros Hp Hint Hdisp Hform Hno Hname Hopen.
  pose proof (last_piece _ _ Hno Hform) as Hpiece.
  pose proof (str_of_filter dquote suf name Hname) as Hstrip.
  pose proof (os_path_join_joined output_dir name) as Hjoin.
  destruct (_download_try_answer url output_dir timeout chunk_size w r file_size
              disposition suf Hp Hint Hdisp Hpiece) as (w' & Hrun & Hf & Hn & _).
  { rewrite Hstrip. exact (Hopen _ Hjoin). }
  rewrite Hstrip in Hrun, Hf.
  exists (os_path_join output_dir name), w'. auto.
Qed.

Lemma nonempty_chunks_all (cs : list (list Byte.byte)) :
  Forall (fun c => c <> []) cs -> nonempty_chunks cs = length cs.
Proof.
  induction 1 as [|c cs Hc _ IH]; [reflexivity|].
  rewrite nonempty_chunks_cons. destruct c; [congruence|]. simpl. congruence.
Qed.

(** C5. The file name is what follows the last [=] of the
    Content-Disposition header with its double quotes removed; the path
    [download] returns, and the file it writes, is the output directory
    joined with that name. *)
Theorem C5_filename_after_last_equals (scene_id output_dir : string)
    (dataset : option string) (timeout : Z) (w : world) (d sid code : string)
    (r : response) (file_size : Z) (pre suf name : string) :
  dataset_of dataset scene_id = Ok d ->
  scene_of scene_id d = Ok sid ->
  DATA_PRODUCTS !! d = Some code ->
  portal (log w ++ prelude_events scene_id output_dir dataset d)
    (GetStream (download_url_of code sid) timeout) = Answer r ->
  py_int (CaseInsensitiveDict.get (headers r) "Content-Length") = Ok file_size ->
  CaseInsensitiveDict.get (headers r) "Content-Disposition"
  = Some (pre +:+ "=" +:+ suf) ->
  ~ In "="%char (list_ascii_of_string suf) ->
  list_ascii_of_string name
  = List.filter (fun c => negb (Ascii.eqb c "034"%char)) (list_ascii_of_string suf) ->
  stream_error r = None ->
  (forall path, posix_joined output_dir name path -> os_open path = None) ->
  exists path : string,
    posix_joined output_dir name path /\
    fst (download scene_id output_dir dataset timeout w) = Ok path /\
    files (snd (download scene_id output_dir dataset timeout w)) !! path
    = Some (concat (chunks r)).
Proof.
  intros Hd Hs Hc Hp Hint Hdisp Hno Hname Herr Hopen.
  rewrite download_cases, Hd. cbn zeta. rewrite Hs, Hc, _download_of_try.
  rewrite <- log_add_events in Hp.
  destruct (_download_try_named _ output_dir _ 1024 _ _ _ _ suf name Hp Hint Hdisp)
    as (path & w' & Hjoin & Hrun & Hf & _); try assumption.
  { right. exists pre. reflexivity. }
  exists path. rewrite Hrun, Herr. auto.
Qed.

(** C10. A Content-Disposition value without [=] is its own last piece:
    the extraction does not fail, and the file name is the whole value
    with its double quotes removed. *)
Theorem C10_filename_without_equals (url output_dir : string) (timeout chunk_size : Z)
    (w : world) (r : response) (file_size : Z) (disposition name : string) :
  portal (log w) (GetStream url timeout) = Answer r ->
  py_int (CaseInsensitiveDict.get (headers r) "Content-Length") = Ok file_size ->
  CaseInsensitiveDict.get (headers r) "Content-Disposition" = Some disposition ->
  ~ In "="%char (list_ascii_of_string disposition) ->
  list_ascii_of_string name
  = List.filter (fun c => negb (Ascii.eqb c "034"%char))
      (list_ascii_of_string disposition) ->
  stream_error r = None ->
  (forall path, posix_joined output_dir name path -> os_open path = None) ->
  index_last (str_split "=" disposition) = Ok disposition /\
  exists path : string,
    posix_joined output_dir name path /\
    fst (_download url output_dir timeout chunk_size w) = Ok path.
Proof.
  intros Hp Hint Hdisp Hno Hname Herr Hopen.
  split; [apply last_piece; [exact Hno|left; reflexivity]|].
  rewrite _download_of_try.
  destruct (_download_try_named _ output_dir _ chunk_size _ _ _ _ disposition name
              Hp Hint Hdisp) as (path & w' & Hjoin & Hrun & _); try assumption.
  { left. reflexivity. }
  exists path. rewrite Hrun, Herr. auto.
Qed.

Lemma count_prelude_requests (scene_id output_dir : string) (dataset : option string)
    (d : string) :
  count_events is_Requested_GetStream (prelude_events scene_id output_dir dataset d)
  = 0%nat.
Proof.
  unfold EarthExplorer.prelude_events, EarthExplorer.scene_events.
  rewrite count_events_cons, count_events_app, count_dataset_events by reflexivity.
  destruct (is_product_id scene_id); reflexivity.
Qed.

(** C6, amended. When the streamed request itself times out (requests
    raises [Timeout] from [session.get]: no connection, or no response
    headers, in time), [download] raises [EarthExplorerError] with the
    message Connection timeout after N seconds., N the timeout passed in
    decimal, and the URL has been requested once.  When instead the
    reading of the body times out, [download] raises the
    [ConnectionError] of [iter_content], untranslated. *)
Theorem C6_request_timeout_raises_one_error (scene_id output_dir : string)
    (dataset : option string) (timeout : Z) (w : world) (d sid code : string) :
  dataset_of dataset scene_id = Ok d ->
  scene_of scene_id d = Ok sid ->
  DATA_PRODUCTS !! d = Some code ->
  (portal (log w ++ prelude_events scene_id output_dir dataset d)
     (GetStream (download_url_of code sid) timeout) = Fail RequestsTimeout ->
   fst (download scene_id output_dir dataset timeout w)
   = Raise (EarthExplorerError
              ("Connection timeout after " +:+ pretty timeout +:+ " seconds.")) /\
   log (snd (download scene_id output_dir dataset timeout w))
   = log w ++ prelude_events scene_id output_dir dataset d
       ++ [Requested (GetStream (download_url_of code sid) timeout)] /\
   count_events is_Requested_GetStream
     (log (snd (download scene_id output_dir dataset timeout w)))
   = S (count_events is_Requested_GetStream (log w)))
  /\
  (forall (r : response) (file_size : Z) (disposition piece : string),
     portal (log w ++ prelude_events scene_id output_dir dataset d)
       (GetStream (download_url_of code sid) timeout) = Answer r ->
     py_int (CaseInsensitiveDict.get (headers r) "Content-Length") = Ok file_size ->
     CaseInsensitiveDict.get (headers r) "Content-Disposition" = Some disposition ->
     index_last (str_split "=" disposition) = Ok piece ->
     os_open (os_path_join output_dir (str_remove dquote piece)) = None ->
     stream_error r = Some ReadTimedOut ->
     fst (download scene_id output_dir dataset timeout w)
     = Raise (OtherError "ConnectionError")).
Proof.
  intros Hd Hs Hc.
  assert (Hlog : log (snd (download scene_id output_dir dataset timeout w))
                 = log w ++ prelude_events scene_id output_dir dataset d
                     ++ [Requested (GetStream (download_url_of code sid) timeout)]).
  { rewrite download_cases, Hd. cbn zeta. rewrite Hs, Hc.
    rewrite _download_log, log_add_events, <- app_assoc. reflexivity. }
  split.
  - intros Hp. split; [|split; [exact Hlog|]].
    + rewrite download_cases, Hd. cbn zeta. rewrite Hs, Hc, _download_of_try.
      rewrite <- log_add_events in Hp.
      unfold EarthExplorer._download_try, mbind, M_bind, EarthExplorer.session_request.
      rewrite Hp. reflexivity.
    + rewrite Hlog, !count_events_app, count_prelude_requests, count_events_cons.
      cbn. lia.
  - intros r file_size disposition piece Hp Hint Hdisp Hpiece Hopen Herr.
    rewrite download_cases, Hd. cbn zeta. rewrite Hs, Hc, _download_of_try.
    rewrite <- log_add_events in Hp.
    destruct (_download_try_answer _ output_dir _ 1024 _ _ _ _ _
                Hp Hint Hdisp Hpiece Hopen) as (w' & Hrun & _).
    rewrite Hrun, Herr. reflexivity.
Qed.

(** C7, amended. A dataset name that is not empty and has no entry in
    [DATA_PRODUCTS]: [download] fails and requests nothing.  The error is
    the [KeyError] of the name when the scene identifier is resolved (or
    needs no resolution), and the error of [get_scene_id] when that call
    fails first. *)
Theorem C7_unknown_dataset_requests_nothing (scene_id output_dir d : string)
    (timeout : Z) (w : world) :
  str_falsy d = false ->
  DATA_PRODUCTS !! d = None ->
  fst (download scene_id output_dir (Some d) timeout w)
  = match scene_of scene_id d with
    | Ok _ => Raise (KeyError d)
    | Raise e => Raise e
    end /\
  log (snd (download scene_id output_dir (Some d) timeout w))
  = log w ++ Makedirs output_dir :: scene_events scene_id d /\
  count_events is_Requested_GetStream
    (log (snd (download scene_id output_dir (Some d) timeout w)))
  = count_events is_Requested_GetStream (log w).
Proof.
  intros Hne Hnone.
  assert (Hd : dataset_of (Some d) scene_id = Ok d)
    by (unfold EarthExplorer.dataset_of; rewrite Hne; reflexivity).
  assert (Hpre : prelude_events scene_id output_dir (Some d) d
                 = Makedirs output_dir :: scene_events scene_id d)
    by (unfold EarthExplorer.prelude_events, EarthExplorer.dataset_events;
        rewrite Hne; reflexivity).
  assert (Hrun : download scene_id output_dir (Some d) timeout w
                 = (match scene_of scene_id d with
                    | Ok _ => Raise (KeyError d)
                    | Raise e => Raise e
                    end,
                    add_events w (Makedirs output_dir :: scene_events scene_id d))).
  { rewrite download_cases, Hd. cbn zeta. rewrite Hnone, Hpre.
    destruct (scene_of scene_id d); reflexivity. }
  rewrite Hrun. cbn [fst snd]. rewrite log_add_events.
  split; [reflexivity|]. split; [reflexivity|].
  rewrite count_events_app, <- Hpre, count_prelude_requests. lia.
Qed.

(** C8. [_download] writes the chunks of the body, in order, to the
    file named after the header, and moves the progress bar by
    [chunk_size] for each chunk received, whatever its length: after the
    k chunks of the stream the bar stands at k times [chunk_size].  The
    chunks [iter_content] yields are not empty.  This holds also when the
    stream breaks after those chunks. *)
Theorem C8_progress_one_unit_per_chunk (url output_dir : string)
    (timeout chunk_size : Z) (w : world) (r : response) (file_size : Z)
    (disposition suf name : string) :
  portal (log w) (GetStream url timeout) = Answer r ->
  py_int (CaseInsensitiveDict.get (headers r) "Content-Length") = Ok file_size ->
  CaseInsensitiveDict.get (headers r) "Content-Disposition" = Some disposition ->
  disposition = suf \/ (exists pre, disposition = pre +:+ "=" +:+ suf) ->
  ~ In "="%char (list_ascii_of_string suf) ->
  list_ascii_of_string name
  = List.filter (fun c => negb (Ascii.eqb c "034"%char)) (list_ascii_of_string suf) ->
  (forall path, posix_joined output_dir name path -> os_open path = None) ->
  Forall (fun chunk => chunk <> []) (chunks r) ->
  exists path : string,
    posix_joined output_dir name path /\
    files (snd (_download url output_dir timeout chunk_size w)) !! path
    = Some (concat (chunks r)) /\
    pbar_n (snd (_download url output_dir timeout chunk_size w))
    = chunk_size * Z.of_nat (length (chunks r)).
Proof.
  intros Hp Hint Hdisp Hform Hno Hname Hopen Hchunks.
  rewrite _download_of_try.
  destruct (_download_try_named _ output_dir _ chunk_size _ _ _ _ suf name
              Hp Hint Hdisp Hform Hno Hname Hopen) as (path & w' & Hjoin & Hrun & Hf & Hn).
  rewrite (nonempty_chunks_all _ Hchunks) in Hn.
  exists path. rewrite Hrun.
  destruct (stream_error r) as [f|]; [destruct f|]; cbn [snd]; auto.
Qed.

(** The loop after any number of chunks: the first chunks [cs1] of a
    stream [cs1 ++ cs2] leave the bar at [chunk_size] times the number of
    non-empty chunks among them, and the loop goes on from there. *)
Lemma write_chunks_prefix (path : string) (size : Z) (cs1 cs2 : list (list Byte.byte))
    (w : world) (old : list Byte.byte) :
  files w !! path = Some old ->
  exists wk,
    EarthExplorer.write_chunks path size cs1 w = (Ok tt, wk) /\
    pbar_n wk = pbar_n w + size * Z.of_nat (nonempty_chunks cs1) /\
    files wk !! path = Some (old ++ concat cs1) /\
    EarthExplorer.write_chunks path size (cs1 ++ cs2) w
    = EarthExplorer.write_chunks path size cs2 wk.
Proof.
  intros Hold.
  destruct (write_chunks_spec path size cs1 w old Hold) as (wk & Hrun & Hf & Hn & _).
  exists wk. repeat split; try assumption.
  clear Hf Hn Hold. revert w wk Hrun.
  induction cs1 as [|c cs1 IH]; intros w wk Hrun.
  - simpl in Hrun. injection Hrun as <-. reflexivity.
  - cbn [app EarthExplorer.write_chunks] in Hrun |- *. unfold mbind, M_bind in Hrun |- *.
    destruct (bytes_falsy c); cbn [mret M_ret modify] in Hrun |- *; exact (IH _ _ Hrun).
Qed.

End Correctness.

(** ** [logged_in] *)

Lemma lookup_named (jar : gmap (string * string * string) string)
    (name d p n v : string) :
  RequestsCookieJar.named name jar !! (d, p, n) = Some v
  <-> jar !! (d, p, n) = Some v /\ n = name.
Proof. unfold RequestsCookieJar.named. rewrite map_lookup_filter_Some. reflexivity. Qed.

(** The answer of [get] depends on the cookies of that name only. *)
Lemma jar_get_ext (jar jar' : gmap (string * string * string) string) (name : string) :
  (forall d p, jar' !! (d, p, name) = jar !! (d, p, name)) ->
  RequestsCookieJar.get jar' name = RequestsCookieJar.get jar name.
Proof.
  intros Hsame. unfold RequestsCookieJar.get.
  replace (RequestsCookieJar.named name jar') with (RequestsCookieJar.named name jar);
    [reflexivity|].
  apply map_eq. intros [[d p] n]. apply option_eq. intros v.
  rewrite !lookup_named. split; intros [H ->]; (split; [|reflexivity]).
  - rewrite Hsame. exact H.
  - rewrite <- Hsame. exact H.
Qed.

(** [get] raises nothing but the conflict. *)
Lemma jar_get_error (jar : gmap (string * string * string) string) (name : string)
    (e : exn) :
  RequestsCookieJar.get jar name = Raise e -> e = OtherError "CookieConflictError".
Proof.
  unfold RequestsCookieJar.get.
  destruct (map_to_list (RequestsCookieJar.named name jar)) as [|[k v] [|kv l]];
    congruence.
Qed.





(** ** [login] on a page without the tokens *)

(** C1. On a login page that has neither attribute, [login] raises
    [IndexError], not the [EarthExplorerError] naming the token; the page
    has been requested and nothing has been posted. *)
Theorem C1_login_without_tokens_raises_IndexError :
  Re.findall csrf_pattern "<html><body>Service unavailable</body></html>" = [] /\
  fst (EarthExplorer.login Sample.portal_no_form "user" "secret" Sample.world0)
  = Raise IndexError /\
  log (snd (EarthExplorer.login Sample.portal_no_form "user" "secret" Sample.world0))
  = [Requested (Get EE_LOGIN_URL)] /\
  count_events is_Requested_Post
    (log (snd (EarthExplorer.login Sample.portal_no_form "user" "secret" Sample.world0)))
  = 0%nat.
Proof. vm_compute. repeat split; reflexivity. Qed.

(** The same with one attribute present and the other missing. *)
Example login_ncforminfo_missing :
  _get_tokens
    ("<input name=" +:+ DQ +:+ "csrf" +:+ DQ +:+ " value=" +:+ DQ +:+ "abc" +:+ DQ +:+ ">")
  = Raise IndexError.
Proof. reflexivity. Qed.

Example login_both_tokens :
  _get_tokens (Sample.login_page "abc" "xyz") = Ok ("abc", "xyz") /\
  fst (EarthExplorer.login (Sample.portal_serving (Fail RequestsTimeout))
         "user" "secret" Sample.world0) = Ok tt.
Proof. split; reflexivity. Qed.

(** ** The claims at concrete inputs *)

(** The dataset landsat_ot_c2_l1 and a product identifier that resolves
    to the scene LC80100172015082LGN00. *)
Lemma C3_download_url_witness :
  EarthExplorer.dataset_of Sample.guess_fails (Some "landsat_ot_c2_l1")
    Sample.product_id_sample = Ok "landsat_ot_c2_l1" /\
  EarthExplorer.scene_of Sample.product_id_by_length Sample.resolver_ok
    Sample.product_id_sample "landsat_ot_c2_l1" = Ok "LC80100172015082LGN00" /\
  DATA_PRODUCTS !! "landsat_ot_c2_l1" = Some "5e81f14f92acf9ef" /\
  log (snd (EarthExplorer.download (Sample.portal_serving (Fail RequestsTimeout))
              Sample.guess_fails Sample.product_id_by_length Sample.resolver_ok
              Sample.int_of_header Sample.open_unless_directory
              Sample.product_id_sample "out" (Some "landsat_ot_c2_l1") 300 Sample.world0))
  = [ Makedirs "out";
      GetSceneId Sample.product_id_sample "landsat_ot_c2_l1";
      Requested (GetStream
        (base_url +:+ "/download/5e81f14f92acf9ef/LC80100172015082LGN00/EE/") 300) ].
Proof.
  assert (H1 : EarthExplorer.dataset_of Sample.guess_fails (Some "landsat_ot_c2_l1")
                 Sample.product_id_sample = Ok "landsat_ot_c2_l1") by reflexivity.
  assert (H2 : EarthExplorer.scene_of Sample.product_id_by_length Sample.resolver_ok
                 Sample.product_id_sample "landsat_ot_c2_l1" = Ok "LC80100172015082LGN00")
    by reflexivity.
  assert (H3 : DATA_PRODUCTS !! "landsat_ot_c2_l1" = Some "5e81f14f92acf9ef")
    by (vm_compute; reflexivity).
  split; [exact H1|]. split; [exact H2|]. split; [exact H3|].
  exact (proj2 (proj2
    (C3_download_builds_product_url (Sample.portal_serving (Fail RequestsTimeout))
       Sample.guess_fails Sample.product_id_by_length Sample.resolver_ok
       Sample.int_of_header Sample.open_unless_directory
       Sample.product_id_sample "out" (Some "landsat_ot_c2_l1")
       300 Sample.world0 _ _ _ H1 H2 H3))).
Defined.

(** A product identifier: one call to the resolver, then the request. *)
Example download_product_id_log :
  log (snd (EarthExplorer.download (Sample.portal_serving (Fail RequestsTimeout))
              Sample.guess_landsat8 Sample.product_id_by_length Sample.resolver_ok
              Sample.int_of_header Sample.open_unless_directory
              Sample.product_id_sample "out" None 300 Sample.world0))
  = [ Makedirs "out";
      GuessDataset Sample.product_id_sample;
      GetSceneId Sample.product_id_sample "landsat_ot_c2_l1";
      Requested (GetStream (download_url_of "5e81f14f92acf9ef" "LC80100172015082LGN00") 300) ].
Proof. vm_compute. reflexivity. Qed.

(** A scene identifier: no call to the resolver. *)
Example download_scene_id_log :
  log (snd (EarthExplorer.download (Sample.portal_serving (Fail RequestsTimeout))
              Sample.guess_landsat8 Sample.product_id_by_length Sample.resolver_ok
              Sample.int_of_header Sample.open_unless_directory
              Sample.scene_id_sample "out" None 300 Sample.world0))
  = [ Makedirs "out";
      GuessDataset Sample.scene_id_sample;
      Requested (GetStream (download_url_of "5e81f14f92acf9ef" "LC80100172015082LGN00") 300) ].
Proof. vm_compute. reflexivity. Qed.

(** A directory name that is not empty and does not end with a slash,
    and a file name that does not start with one, join with a slash. *)
Lemma posix_joined_plain (dir name path : string) :
  (forall n, name <> "/" +:+ n) ->
  dir <> EmptyString ->
  (forall d, dir <> d +:+ "/") ->
  posix_joined dir name path ->
  path = dir +:+ "/" +:+ name.
Proof. intros Hn Hd Hs (_ & _ & _ & H). exact (H Hn Hd Hs). Qed.

Lemma not_absolute (name : string) :
  str_startswith "/" name = false -> forall n, name <> "/" +:+ n.
Proof.
  intros Hs n Hn.
  assert (H : str_startswith "/" name = true)
    by (apply str_startswith_slash; exists n; exact Hn).
  congruence.
Qed.

Lemma out_is_plain : "out" <> EmptyString /\ forall d, "out" <> d +:+ "/".
Proof.
  split; [discriminate|].
  intros [|a [|b [|c [|e d]]]]; discriminate.
Qed.

Lemma C5_filename_witness :
  (EarthExplorer.dataset_of Sample.guess_landsat8 None Sample.scene_id_sample
   = Ok "landsat_ot_c2_l1" /\
   EarthExplorer.scene_of Sample.product_id_by_length Sample.resolver_ok
     Sample.scene_id_sample "landsat_ot_c2_l1" = Ok Sample.scene_id_sample /\
   DATA_PRODUCTS !! "landsat_ot_c2_l1" = Some "5e81f14f92acf9ef" /\
   Sample.portal_serving (Answer Sample.tar_archive)
     (log Sample.world0
        ++ EarthExplorer.prelude_events Sample.product_id_by_length
             Sample.scene_id_sample "out" None "landsat_ot_c2_l1")
     (GetStream (download_url_of "5e81f14f92acf9ef" Sample.scene_id_sample) 300)
   = Answer Sample.tar_archive /\
   Sample.int_of_header
     (CaseInsensitiveDict.get (headers Sample.tar_archive) "Content-Length") = Ok 3 /\
   CaseInsensitiveDict.get (headers Sample.tar_archive) "Content-Disposition"
   = Some ("attachment; filename" +:+ "=" +:+ (DQ +:+ "LC08_scene.tar" +:+ DQ)) /\
   ~ In "="%char (list_ascii_of_string (DQ +:+ "LC08_scene.tar" +:+ DQ)) /\
   list_ascii_of_string "LC08_scene.tar"
   = List.filter (fun c => negb (Ascii.eqb c "034"%char))
       (list_ascii_of_string (DQ +:+ "LC08_scene.tar" +:+ DQ)) /\
   stream_error Sample.tar_archive = None /\
   (forall path, posix_joined "out" "LC08_scene.tar" path ->
                 Sample.open_unless_directory path = None)) /\
  (exists path : string,
     posix_joined "out" "LC08_scene.tar" path /\
     fst (EarthExplorer.download (Sample.portal_serving (Answer Sample.tar_archive))
            Sample.guess_landsat8 Sample.product_id_by_length Sample.resolver_ok
            Sample.int_of_header Sample.open_unless_directory
            Sample.scene_id_sample "out" None 300 Sample.world0)
     = Ok path /\
     files (snd (EarthExplorer.download (Sample.portal_serving (Answer Sample.tar_archive))
                   Sample.guess_landsat8 Sample.product_id_by_length Sample.resolver_ok
                   Sample.int_of_header Sample.open_unless_directory
                   Sample.scene_id_sample "out" None 300 Sample.world0))
       !! path
     = Some (concat (chunks Sample.tar_archive))) /\
  fst (EarthExplorer.download (Sample.portal_serving (Answer Sample.tar_archive))
         Sample.guess_landsat8 Sample.product_id_by_length Sample.resolver_ok
         Sample.int_of_header Sample.open_unless_directory
         Sample.scene_id_sample "out" None 300 Sample.world0)
  = Ok "out/LC08_scene.tar".
Proof.
  assert (H1 : EarthExplorer.dataset_of Sample.guess_landsat8 None Sample.scene_id_sample
               = Ok "landsat_ot_c2_l1") by reflexivity.
  assert (H2 : EarthExplorer.scene_of Sample.product_id_by_length Sample.resolver_ok
                 Sample.scene_id_sample "landsat_ot_c2_l1" = Ok Sample.scene_id_sample)
    by reflexivity.
  assert (H3 : DATA_PRODUCTS !! "landsat_ot_c2_l1" = Some "5e81f14f92acf9ef")
    by (vm_compute; reflexivity).
  assert (H4 : Sample.portal_serving (Answer Sample.tar_archive)
                 (log Sample.world0
                    ++ EarthExplorer.prelude_events Sample.product_id_by_length
                         Sample.scene_id_sample "out" None "landsat_ot_c2_l1")
                 (GetStream (download_url_of "5e81f14f92acf9ef" Sample.scene_id_sample) 300)
               = Answer Sample.tar_archive) by reflexivity.
  assert (H5 : Sample.int_of_header
                 (CaseInsensitiveDict.get (headers Sample.tar_archive) "Content-Length")
               = Ok 3) by (vm_compute; reflexivity).
  assert (H6 : CaseInsensitiveDict.get (headers Sample.tar_archive) "Content-Disposition"
               = Some ("attachment; filename" +:+ "=" +:+ (DQ +:+ "LC08_scene.tar" +:+ DQ)))
    by (vm_compute; reflexivity).
  assert (H7 : ~ In "="%char (list_ascii_of_string (DQ +:+ "LC08_scene.tar" +:+ DQ)))
    by (intros H; repeat (destruct H as [H|H]; [discriminate H|]); exact H).
  assert (H8 : list_ascii_of_string "LC08_scene.tar"
               = List.filter (fun c => negb (Ascii.eqb c "034"%char))
                   (list_ascii_of_string (DQ +:+ "LC08_scene.tar" +:+ DQ)))
    by reflexivity.
  assert (H9 : stream_error Sample.tar_archive = None) by reflexivity.
  assert (H10 : forall path, posix_joined "out" "LC08_scene.tar" path ->
                             Sample.open_unless_directory path = None).
  { intros path Hj.
    rewrite (posix_joined_plain _ _ _ (not_absolute "LC08_scene.tar" eq_refl)
               (proj1 out_is_plain) (proj2 out_is_plain) Hj).
    reflexivity. }
  split; [repeat split; assumption|].
  split; [|reflexivity].
  exact (C5_filename_after_last_equals (Sample.portal_serving (Answer Sample.tar_archive))
           Sample.guess_landsat8 Sample.product_id_by_length Sample.resolver_ok
           Sample.int_of_header Sample.open_unless_directory
           Sample.scene_id_sample "out" None 300 Sample.world0
           _ _ _ _ _ _ _ _ H1 H2 H3 H4 H5 H6 H7 H8 H9 H10).
Defined.

(** Header names are matched whatever their case. *)
Example download_lowercase_headers :
  fst (EarthExplorer._download (Sample.portal_serving (Answer Sample.lowercase_archive))
         Sample.int_of_header Sample.open_unless_directory
         "https://earthexplorer.usgs.gov/download/x/y/EE/" "out" 300 1024 Sample.world0)
  = Ok "out/LC08_scene.tar".
Proof. vm_compute. reflexivity. Qed.

(** A header that ends with the equals sign names the directory itself,
    which cannot be opened for writing. *)
Example download_empty_filename :
  fst (EarthExplorer._download
         (Sample.portal_serving (Answer (Sample.archive "attachment; filename=" [] None)))
         Sample.int_of_header Sample.open_unless_directory
         "https://earthexplorer.usgs.gov/download/x/y/EE/" "out" 300 1024 Sample.world0)
  = Raise (OtherError "IsADirectoryError").
Proof. vm_compute. reflexivity. Qed.

Lemma C10_filename_without_equals_witness :
  (Sample.portal_serving (Answer Sample.plain_archive) (log Sample.world0)
     (GetStream "https://earthexplorer.usgs.gov/download/x/y/EE/" 300)
   = Answer Sample.plain_archive /\
   Sample.int_of_header
     (CaseInsensitiveDict.get (headers Sample.plain_archive) "Content-Length") = Ok 3 /\
   CaseInsensitiveDict.get (headers Sample.plain_archive) "Content-Disposition"
   = Some (DQ +:+ "scene.tar" +:+ DQ) /\
   ~ In "="%char (list_ascii_of_string (DQ +:+ "scene.tar" +:+ DQ)) /\
   list_ascii_of_string "scene.tar"
   = List.filter (fun c => negb (Ascii.eqb c "034"%char))
       (list_ascii_of_string (DQ +:+ "scene.tar" +:+ DQ)) /\
   stream_error Sample.plain_archive = None /\
   (forall path, posix_joined "out" "scene.tar" path ->
                 Sample.open_unless_directory path = None)) /\
  (exists path : string,
     posix_joined "out" "scene.tar" path /\
     fst (EarthExplorer._download (Sample.portal_serving (Answer Sample.plain_archive))
            Sample.int_of_header Sample.open_unless_directory
            "https://earthexplorer.usgs.gov/download/x/y/EE/" "out" 300 1024 Sample.world0)
     = Ok path) /\
  fst (EarthExplorer._download (Sample.portal_serving (Answer Sample.plain_archive))
         Sample.int_of_header Sample.open_unless_directory
         "https://earthexplorer.usgs.gov/download/x/y/EE/" "out" 300 1024 Sample.world0)
  = Ok "out/scene.tar".
Proof.
  assert (H1 : Sample.portal_serving (Answer Sample.plain_archive) (log Sample.world0)
                 (GetStream "https://earthexplorer.usgs.gov/download/x/y/EE/" 300)
               = Answer Sample.plain_archive) by reflexivity.
  assert (H2 : Sample.int_of_header
                 (CaseInsensitiveDict.get (headers Sample.plain_archive) "Content-Length")
               = Ok 3) by (vm_compute; reflexivity).
  assert (H3 : CaseInsensitiveDict.get (headers Sample.plain_archive) "Content-Disposition"
               = Some (DQ +:+ "scene.tar" +:+ DQ)) by (vm_compute; reflexivity).
  assert (H4 : ~ In "="%char (list_ascii_of_string (DQ +:+ "scene.tar" +:+ DQ)))
    by (intros H; repeat (destruct H as [H|H]; [discriminate H|]); exact H).
  assert (H5 : list_ascii_of_string "scene.tar"
               = List.filter (fun c => negb (Ascii.eqb c "034"%char))
                   (list_ascii_of_string (DQ +:+ "scene.tar" +:+ DQ))) by reflexivity.
  assert (H6 : stream_error Sample.plain_archive = None) by reflexivity.
  assert (H7 : forall path, posix_joined "out" "scene.tar" path ->
                            Sample.open_unless_directory path = None).
  { intros path Hj.
    rewrite (posix_joined_plain _ _ _ (not_absolute "scene.tar" eq_refl)
               (proj1 out_is_plain) (proj2 out_is_plain) Hj).
    reflexivity. }
  split; [repeat split; assumption|].
  split; [|reflexivity].
  exact (proj2 (C10_filename_without_equals
                  (Sample.portal_serving (Answer Sample.plain_archive))
                  Sample.int_of_header Sample.open_unless_directory
                  _ "out" 300 1024 Sample.world0 _ _ _ _
                  H1 H2 H3 H4 H5 H6 H7)).
Defined.

Lemma C6_timeout_witness :
  (EarthExplorer.dataset_of Sample.guess_landsat8 None Sample.scene_id_sample
   = Ok "landsat_ot_c2_l1" /\
   EarthExplorer.scene_of Sample.product_id_by_length Sample.resolver_ok
     Sample.scene_id_sample "landsat_ot_c2_l1" = Ok Sample.scene_id_sample /\
   DATA_PRODUCTS !! "landsat_ot_c2_l1" = Some "5e81f14f92acf9ef" /\
   Sample.portal_serving (Fail RequestsTimeout)
     (log Sample.world0
        ++ EarthExplorer.prelude_events Sample.product_id_by_length
             Sample.scene_id_sample "out" None "landsat_ot_c2_l1")
     (GetStream (download_url_of "5e81f14f92acf9ef" Sample.scene_id_sample) 300)
   = Fail RequestsTimeout) /\
  fst (EarthExplorer.download (Sample.portal_serving (Fail RequestsTimeout))
         Sample.guess_landsat8 Sample.product_id_by_length Sample.resolver_ok
         Sample.int_of_header Sample.open_unless_directory
         Sample.scene_id_sample "out" None 300 Sample.world0)
  = Raise (EarthExplorerError "Connection timeout after 300 seconds.").
Proof.
  assert (H1 : EarthExplorer.dataset_of Sample.guess_landsat8 None Sample.scene_id_sample
               = Ok "landsat_ot_c2_l1") by reflexivity.
  assert (H2 : EarthExplorer.scene_of Sample.product_id_by_length Sample.resolver_ok
                 Sample.scene_id_sample "landsat_ot_c2_l1" = Ok Sample.scene_id_sample)
    by reflexivity.
  assert (H3 : DATA_PRODUCTS !! "landsat_ot_c2_l1" = Some "5e81f14f92acf9ef")
    by (vm_compute; reflexivity).
  assert (H4 : Sample.portal_serving (Fail RequestsTimeout)
                 (log Sample.world0
                    ++ EarthExplorer.prelude_events Sample.product_id_by_length
                         Sample.scene_id_sample "out" None "landsat_ot_c2_l1")
                 (GetStream (download_url_of "5e81f14f92acf9ef" Sample.scene_id_sample) 300)
               = Fail RequestsTimeout) by reflexivity.
  split; [repeat split; assumption|].
  exact (proj1 (proj1 (C6_request_timeout_raises_one_error
                         (Sample.portal_serving (Fail RequestsTimeout))
                         Sample.guess_landsat8 Sample.product_id_by_length
                         Sample.resolver_ok Sample.int_of_header
                         Sample.open_unless_directory
                         Sample.scene_id_sample "out" None 300 Sample.world0
                         _ _ _ H1 H2 H3) H4)).
Defined.

(** C6 as stated fails on a read timeout while the body is streamed:
    [iter_content] raises it as [ConnectionError], which the [except]
    clause does not catch, so [download] raises [ConnectionError] and not
    the error with the timeout message.  The chunk received before it is
    in the file. *)
Lemma C6_read_timeout_counterexample :
  stream_error Sample.stalled_archive = Some ReadTimedOut /\
  fst (EarthExplorer.download (Sample.portal_serving (Answer Sample.stalled_archive))
         Sample.guess_landsat8 Sample.product_id_by_length Sample.resolver_ok
         Sample.int_of_header Sample.open_unless_directory
         Sample.scene_id_sample "out" None 300 Sample.world0)
  = Raise (OtherError "ConnectionError") /\
  fst (EarthExplorer.download (Sample.portal_serving (Answer Sample.stalled_archive))
         Sample.guess_landsat8 Sample.product_id_by_length Sample.resolver_ok
         Sample.int_of_header Sample.open_unless_directory
         Sample.scene_id_sample "out" None 300 Sample.world0)
  <> Raise (EarthExplorerError "Connection timeout after 300 seconds.").
Proof.
  split; [reflexivity|]. split; [vm_compute; reflexivity|].
  vm_compute. discriminate.
Qed.

(** An unknown dataset with a scene identifier: [KeyError], no request. *)
Lemma C7_unknown_dataset_witness :
  (str_falsy "landsat_9" = false /\ DATA_PRODUCTS !! "landsat_9" = None) /\
  fst (EarthExplorer.download (Sample.portal_serving (Answer Sample.tar_archive))
         Sample.guess_landsat8 Sample.product_id_by_length Sample.resolver_ok
         Sample.int_of_header Sample.open_unless_directory
         Sample.scene_id_sample "out" (Some "landsat_9") 300
         Sample.world0)
  = Raise (KeyError "landsat_9") /\
  log (snd (EarthExplorer.download (Sample.portal_serving (Answer Sample.tar_archive))
              Sample.guess_landsat8 Sample.product_id_by_length Sample.resolver_ok
              Sample.int_of_header Sample.open_unless_directory
              Sample.scene_id_sample "out" (Some "landsat_9") 300
              Sample.world0))
  = [Makedirs "out"].
Proof.
  assert (H1 : str_falsy "landsat_9" = false) by reflexivity.
  assert (H2 : DATA_PRODUCTS !! "landsat_9" = None) by (vm_compute; reflexivity).
  split; [split; assumption|].
  pose proof (C7_unknown_dataset_requests_nothing
                (Sample.portal_serving (Answer Sample.tar_archive))
                Sample.guess_landsat8 Sample.product_id_by_length Sample.resolver_ok
                Sample.int_of_header Sample.open_unless_directory
                Sample.scene_id_sample "out" "landsat_9" 300
                Sample.world0 H1 H2) as (Hres & Hlog & _).
  split; [exact Hres|exact Hlog].
Defined.

(** C7 as stated fails twice.  An empty dataset name has no entry in the
    table and is taken as no dataset at all: the dataset is guessed and
    the archive is requested and written.  An unknown name with a product
    identifier whose resolution fails: the error is the resolver's, not
    the [KeyError]. *)
Lemma C7_unknown_dataset_counterexample :
  (DATA_PRODUCTS !! EmptyString = None /\
   fst (EarthExplorer.download (Sample.portal_serving (Answer Sample.tar_archive))
          Sample.guess_landsat8 Sample.product_id_by_length Sample.resolver_ok
          Sample.int_of_header Sample.open_unless_directory
          Sample.scene_id_sample "out" (Some EmptyString) 300
          Sample.world0)
   = Ok "out/LC08_scene.tar" /\
   count_events is_Requested_GetStream
     (log (snd (EarthExplorer.download (Sample.portal_serving (Answer Sample.tar_archive))
                  Sample.guess_landsat8 Sample.product_id_by_length Sample.resolver_ok
                  Sample.int_of_header Sample.open_unless_directory
                  Sample.scene_id_sample "out" (Some EmptyString) 300
                  Sample.world0)))
   = 1%nat) /\
  (DATA_PRODUCTS !! "landsat_9" = None /\
   fst (EarthExplorer.download (Sample.portal_serving (Answer Sample.tar_archive))
          Sample.guess_landsat8 Sample.product_id_by_length Sample.resolver_fails
          Sample.int_of_header Sample.open_unless_directory
          Sample.product_id_sample "out" (Some "landsat_9") 300
          Sample.world0)
   <> Raise (KeyError "landsat_9")).
Proof.
  split; [vm_compute; repeat split; reflexivity|].
  split; [vm_compute; reflexivity|].
  vm_compute. discriminate.
Qed.

Lemma C8_progress_witness :
  (Sample.portal_serving (Answer Sample.tar_archive) (log Sample.world0)
     (GetStream "https://earthexplorer.usgs.gov/download/x/y/EE/" 300)
   = Answer Sample.tar_archive /\
   Sample.int_of_header
     (CaseInsensitiveDict.get (headers Sample.tar_archive) "Content-Length") = Ok 3 /\
   CaseInsensitiveDict.get (headers Sample.tar_archive) "Content-Disposition"
   = Some Sample.tar_disposition /\
   (Sample.tar_disposition = DQ +:+ "LC08_scene.tar" +:+ DQ \/
    exists pre, Sample.tar_disposition = pre +:+ "=" +:+ (DQ +:+ "LC08_scene.tar" +:+ DQ)) /\
   ~ In "="%char (list_ascii_of_string (DQ +:+ "LC08_scene.tar" +:+ DQ)) /\
   list_ascii_of_string "LC08_scene.tar"
   = List.filter (fun c => negb (Ascii.eqb c "034"%char))
       (list_ascii_of_string (DQ +:+ "LC08_scene.tar" +:+ DQ)) /\
   (forall path, posix_joined "out" "LC08_scene.tar" path ->
                 Sample.open_unless_directory path = None) /\
   Forall (fun chunk => chunk <> []) (chunks Sample.tar_archive)) /\
  (exists path : string,
     posix_joined "out" "LC08_scene.tar" path /\
     files (snd (EarthExplorer._download (Sample.portal_serving (Answer Sample.tar_archive))
                   Sample.int_of_header Sample.open_unless_directory
                   "https://earthexplorer.usgs.gov/download/x/y/EE/" "out" 300 1024
                   Sample.world0))
       !! path
     = Some (concat (chunks Sample.tar_archive)) /\
     pbar_n (snd (EarthExplorer._download (Sample.portal_serving (Answer Sample.tar_archive))
                    Sample.int_of_header Sample.open_unless_directory
                    "https://earthexplorer.usgs.gov/download/x/y/EE/" "out" 300 1024
                    Sample.world0))
     = 1024 * Z.of_nat (length (chunks Sample.tar_archive))) /\
  pbar_n (snd (EarthExplorer._download (Sample.portal_serving (Answer Sample.tar_archive))
                 Sample.int_of_header Sample.open_unless_directory
                 "https://earthexplorer.usgs.gov/download/x/y/EE/" "out" 300 1024
                 Sample.world0))
  = 2048.
Proof.
  assert (H1 : Sample.portal_serving (Answer Sample.tar_archive) (log Sample.world0)
                 (GetStream "https://earthexplorer.usgs.gov/download/x/y/EE/" 300)
               = Answer Sample.tar_archive) by reflexivity.
  assert (H2 : Sample.int_of_header
                 (CaseInsensitiveDict.get (headers Sample.tar_archive) "Content-Length")
               = Ok 3) by (vm_compute; reflexivity).
  assert (H3 : CaseInsensitiveDict.get (headers Sample.tar_archive) "Content-Disposition"
               = Some Sample.tar_disposition) by (vm_compute; reflexivity).
  assert (H4 : Sample.tar_disposition = DQ +:+ "LC08_scene.tar" +:+ DQ \/
               exists pre,
                 Sample.tar_disposition
                 = pre +:+ "=" +:+ (DQ +:+ "LC08_scene.tar" +:+ DQ))
    by (right; exists "attachment; filename"; reflexivity).
  assert (H5 : ~ In "="%char (list_ascii_of_string (DQ +:+ "LC08_scene.tar" +:+ DQ)))
    by (intros H; repeat (destruct H as [H|H]; [discriminate H|]); exact H).
  assert (H6 : list_ascii_of_string "LC08_scene.tar"
               = List.filter (fun c => negb (Ascii.eqb c "034"%char))
                   (list_ascii_of_string (DQ +:+ "LC08_scene.tar" +:+ DQ)))
    by reflexivity.
  assert (H7 : forall path, posix_joined "out" "LC08_scene.tar" path ->
                            Sample.open_unless_directory path = None).
  { intros path Hj.
    rewrite (posix_joined_plain _ _ _ (not_absolute "LC08_scene.tar" eq_refl)
               (proj1 out_is_plain) (proj2 out_is_plain) Hj).
    reflexivity. }
  assert (H8 : Forall (fun chunk => chunk <> []) (chunks Sample.tar_archive))
    by (repeat constructor; discriminate).
  split; [repeat split; assumption|].
  split; [|vm_compute; reflexivity].
  exact (C8_progress_one_unit_per_chunk
           (Sample.portal_serving (Answer Sample.tar_archive)) Sample.int_of_header
           Sample.open_unless_directory _ "out" 300 1024 Sample.world0 _ _ _ _ _
           H1 H2 H3 H4 H5 H6 H7 H8).
Defined.

(** * Further properties of the module *)

(** ** Strings, continued *)

Lemma str_app_cons (x : ascii) (a b : string) : String x a +:+ b = String x (a +:+ b).
Proof. reflexivity. Qed.

Lemma str_app_assoc (a b c : string) : (a +:+ b) +:+ c = a +:+ (b +:+ c).
Proof.
  induction a as [|x a IH]; [reflexivity|].
  rewrite !str_app_cons, IH. reflexivity.
Qed.

Lemma str_app_nil_r (a : string) : a +:+ EmptyString = a.
Proof.
  induction a as [|x a IH]; [reflexivity|].
  rewrite str_app_cons, IH. reflexivity.
Qed.

Lemma str_contains_char_app (c : ascii) (a b : string) :
  str_contains_char c (a +:+ b) = str_contains_char c a || str_contains_char c b.
Proof.
  induction a as [|x a IH]; [reflexivity|].
  rewrite str_app_cons. simpl. rewrite IH. apply orb_assoc.
Qed.

Lemma str_startswith_app (pre rest : string) : str_startswith pre (pre +:+ rest) = true.
Proof.
  induction pre as [|x pre IH]; [reflexivity|].
  rewrite str_app_cons. simpl. rewrite Ascii.eqb_refl. exact IH.
Qed.

(** ** The patterns: what a match is made of *)

Lemma csrf_pattern_shape :
  csrf_pattern = Re.lits (attr_prefix "csrf") ++ Re.LazyGroup :: Re.lits DQ.
Proof. reflexivity. Qed.

Lemma ncform_pattern_shape :
  ncform_pattern = Re.lits (attr_prefix "__ncforminfo") ++ Re.LazyGroup :: Re.lits DQ.
Proof. reflexivity. Qed.

(** A pattern of literals matches its own text and captures nothing. *)
Lemma re_match_lits_sound (suf s g : string) (n : nat) :
  Re.re_match (Re.lits suf) s = Some (g, n) ->
  exists rest, s = suf +:+ rest.
Proof.
  revert s g n. induction suf as [|c suf IH]; intros s g n; cbn.
  - intros _. exists s. reflexivity.
  - destruct s as [|a s]; [discriminate|].
    destruct (Ascii.eqb_spec a c) as [->|_]; [|discriminate].
    destruct (Re.re_match (Re.lits suf) s) as [[g' n']|] eqn:E; [|discriminate].
    intros _. destruct (IH _ _ _ E) as [rest ->]. exists rest. reflexivity.
Qed.

(** The group followed by literals: the capture has no newline and is
    followed by the literals. *)
Lemma re_match_group_sound (suf s g : string) (n : nat) :
  Re.re_match (Re.LazyGroup :: Re.lits suf) s = Some (g, n) ->
  str_contains_char newline g = false /\
  exists rest, s = g +:+ suf +:+ rest.
Proof.
  cbn. revert g n. induction s as [|a s IH]; intros g n; [discriminate|].
  destruct (Ascii.eqb a newline) eqn:Ea; [discriminate|].
  destruct (Re.re_match (Re.lits suf) s) as [[g' n']|] eqn:E.
  - intros H. injection H as <- _. simpl. rewrite Ea. split; [reflexivity|].
    destruct (re_match_lits_sound _ _ _ _ E) as [rest ->]. exists rest. reflexivity.
  - match goal with |- context [match ?x with Some _ => _ | None => _ end] =>
      destruct x as [[g' n']|] eqn:E' end; [|discriminate].
    intros H. injection H as <- _.
    destruct (IH _ _ eq_refl) as (Hnl & rest & ->).
    simpl. rewrite Ea, Hnl. split; [reflexivity|]. exists rest. reflexivity.
Qed.

Lemma re_match_attr_sound (pre suf s g : string) (n : nat) :
  Re.re_match (Re.lits pre ++ Re.LazyGroup :: Re.lits suf) s = Some (g, n) ->
  str_contains_char newline g = false /\
  exists rest, s = pre +:+ g +:+ suf +:+ rest.
Proof.
  revert s g n. induction pre as [|c pre IH]; intros s g n.
  - apply re_match_group_sound.
  - cbn [Re.lits app Re.re_match]. destruct s as [|a s]; [discriminate|].
    destruct (Ascii.eqb_spec a c) as [->|_]; [|discriminate].
    destruct (Re.re_match (Re.lits pre ++ Re.LazyGroup :: Re.lits suf) s)
      as [[g' n']|] eqn:E; [|discriminate].
    intros H. injection H as <- _.
    destruct (IH _ _ _ E) as (Hnl & rest & ->).
    split; [exact Hnl|]. exists rest. reflexivity.
Qed.

(** Every capture [findall] returns stands in the text between the
    literals of the pattern. *)
Lemma findall_from_sound (pre suf : string) (s : string) :
  forall (skip : nat) (g : string),
    In g (Re.findall_from (Re.lits pre ++ Re.LazyGroup :: Re.lits suf) skip s) ->
    str_contains_char newline g = false /\
    exists a b, s = a +:+ pre +:+ g +:+ suf +:+ b.
Proof.
  induction s as [|c s IH]; intros skip g; cbn [Re.findall_from].
  - destruct skip; [|intros []].
    destruct (Re.re_match _ EmptyString) as [[g' n']|] eqn:E; [|intros []].
    intros [<-|[]]. destruct (re_match_attr_sound _ _ _ _ _ E) as (Hnl & rest & Hs).
    split; [exact Hnl|]. exists EmptyString, rest. exact Hs.
  - assert (Hlater : forall k,
              In g (Re.findall_from (Re.lits pre ++ Re.LazyGroup :: Re.lits suf) k s) ->
              str_contains_char newline g = false /\
              exists a b, String c s = a +:+ pre +:+ g +:+ suf +:+ b).
    { intros k Hin. destruct (IH _ _ Hin) as (Hnl & a & b & ->).
      split; [exact Hnl|]. exists (String c a), b. reflexivity. }
    destruct skip as [|k]; [|apply Hlater].
    destruct (Re.re_match _ (String c s)) as [[g' n']|] eqn:E; [|apply Hlater].
    intros [<-|Hin]; [|exact (Hlater _ Hin)].
    destruct (re_match_attr_sound _ _ _ _ _ E) as (Hnl & rest & Hs).
    split; [exact Hnl|]. exists EmptyString, rest. exact Hs.
Qed.

(** X1. The tokens [_get_tokens] returns are taken from the page: each
    stands in the body between the opening of its attribute and a double
    quote, and holds no newline. *)
Theorem get_tokens_sound (body csrf ncform : string) :
  _get_tokens body = Ok (csrf, ncform) ->
  (exists a b, body = a +:+ attr_prefix "csrf" +:+ csrf +:+ DQ +:+ b) /\
  (exists a b, body = a +:+ attr_prefix "__ncforminfo" +:+ ncform +:+ DQ +:+ b) /\
  str_contains_char newline csrf = false /\
  str_contains_char newline ncform = false.
Proof.
  unfold _get_tokens, Re.findall.
  destruct (Re.findall_from csrf_pattern 0 body) as [|c l1] eqn:E1; [discriminate|].
  destruct (Re.findall_from ncform_pattern 0 body) as [|n l2] eqn:E2; [discriminate|].
  cbn [index_first]. destruct (str_falsy c); [discriminate|].
  destruct (str_falsy n); [discriminate|].
  intros H. injection H as <- <-.
  destruct (findall_from_sound (attr_prefix "csrf") DQ body O c) as (Hc & Hbc).
  { rewrite <- csrf_pattern_shape, E1. left. reflexivity. }
  destruct (findall_from_sound (attr_prefix "__ncforminfo") DQ body O n) as (Hn & Hbn).
  { rewrite <- ncform_pattern_shape, E2. left. reflexivity. }
  auto.
Qed.

Lemma get_tokens_sound_witness :
  _get_tokens (Sample.login_page "abc" "xyz") = Ok ("abc", "xyz") /\
  exists a b,
    Sample.login_page "abc" "xyz" = a +:+ attr_prefix "csrf" +:+ "abc" +:+ DQ +:+ b.
Proof.
  assert (H : _get_tokens (Sample.login_page "abc" "xyz") = Ok ("abc", "xyz"))
    by reflexivity.
  split; [exact H|].
  exact (proj1 (get_tokens_sound _ _ _ H)).
Defined.

(** ** The patterns: when they match *)

Lemma re_match_group_step (p : Re.regex) (c : ascii) (s : string) :
  Re.re_match (Re.LazyGroup :: p) (String c s)
  = if Ascii.eqb c newline then None
    else match Re.re_match p s with
         | Some (_, n) => Some (String c EmptyString, S n)
         | None =>
             match Re.re_match (Re.LazyGroup :: p) s with
             | Some (g, n) => Some (String c g, S n)
             | None => None
             end
         end.
Proof. reflexivity. Qed.

Lemma re_match_lit_step (c : ascii) (p : Re.regex) (a : ascii) (s : string) :
  Re.re_match (Re.Lit c :: p) (String a s)
  = if Ascii.eqb a c then
      match Re.re_match p s with
      | Some (g, n) => Some (g, S n)
      | None => None
      end
    else None.
Proof. reflexivity. Qed.

(** A pattern that begins with literals matches only where they stand. *)
Lemma re_match_startswith (pre : string) (p : Re.regex) (s : string) :
  str_startswith pre s = false -> Re.re_match (Re.lits pre ++ p) s = None.
Proof.
  revert s. induction pre as [|c pre IH]; intros s; [discriminate|].
  destruct s as [|a s]; [reflexivity|].
  cbn [Re.lits app]. rewrite re_match_lit_step. simpl.
  rewrite Ascii.eqb_sym.
  destruct (Ascii.eqb a c); [|reflexivity].
  simpl. intros H. rewrite (IH _ H). reflexivity.
Qed.

(** The lazy group stops at the first double quote. *)
Lemma re_match_group_complete (t rest : string) :
  str_contains_char dquote t = false ->
  str_contains_char newline t = false ->
  forall c : ascii,
    Ascii.eqb c newline = false ->
    exists n,
      Re.re_match (Re.LazyGroup :: Re.lits DQ) (String c t +:+ DQ +:+ rest)
      = Some (String c t, n).
Proof.
  induction t as [|c' t IH]; intros Hq Hnl c Hc;
    rewrite str_app_cons, re_match_group_step, Hc.
  - eexists. reflexivity.
  - simpl in Hq, Hnl.
    apply orb_false_iff in Hq as [Hq1 Hq], Hnl as [Hnl1 Hnl].
    rewrite str_app_cons. cbn [DQ Re.lits]. rewrite re_match_lit_step, Hq1.
    destruct (IH Hq Hnl c' Hnl1) as [n Hn].
    rewrite <- str_app_cons. change (Re.Lit dquote :: []) with (Re.lits DQ).
    rewrite Hn. eexists. reflexivity.
Qed.

Lemma re_match_attr_complete (pre tok rest : string) :
  token_ok tok = true ->
  exists n,
    Re.re_match (Re.lits pre ++ Re.LazyGroup :: Re.lits DQ) (pre +:+ tok +:+ DQ +:+ rest)
    = Some (tok, n).
Proof.
  unfold token_ok. intros Hok.
  apply andb_true_iff in Hok as [Hok Hnl]. apply andb_true_iff in Hok as [Hne Hq].
  apply negb_true_iff in Hne, Hq, Hnl.
  destruct tok as [|c t]; [discriminate|].
  simpl in Hq, Hnl. apply orb_false_iff in Hq as [_ Hq], Hnl as [Hc Hnl].
  induction pre as [|x pre IH].
  - exact (re_match_group_complete t rest Hq Hnl c Hc).
  - destruct IH as [n Hn]. rewrite str_app_cons. cbn [Re.lits app].
    rewrite re_match_lit_step, Ascii.eqb_refl, Hn. eexists. reflexivity.
Qed.

(** The first capture is the value at the first place where the literals
    before the group stand. *)
Lemma findall_first (pre tok a b : string) :
  token_ok tok = true ->
  starts_nowhere pre a (pre +:+ tok +:+ DQ +:+ b) = true ->
  index_first (Re.findall (Re.lits pre ++ Re.LazyGroup :: Re.lits DQ)
                 (a +:+ pre +:+ tok +:+ DQ +:+ b))
  = Ok tok.
Proof.
  intros Hok. unfold Re.findall. induction a as [|c a IH]; intros Hno.
  - destruct (re_match_attr_complete pre tok b Hok) as [n Hn].
    change (EmptyString +:+ pre +:+ tok +:+ DQ +:+ b) with (pre +:+ tok +:+ DQ +:+ b).
    destruct (pre +:+ tok +:+ DQ +:+ b) as [|x s]; cbn [Re.findall_from];
      rewrite Hn; reflexivity.
  - cbn [starts_nowhere] in Hno. apply andb_true_iff in Hno as [Hhere Hno].
    apply negb_true_iff in Hhere.
    rewrite str_app_cons in Hhere |- *. cbn [Re.findall_from].
    rewrite (re_match_startswith _ _ _ Hhere). exact (IH Hno).
Qed.

(** X2. A page that carries both attributes, each value a token of the
    form: [_get_tokens] returns the value at the first opening of each
    attribute. *)
Theorem get_tokens_first_occurrence (body a1 b1 a2 b2 csrf ncform : string) :
  body = a1 +:+ attr_prefix "csrf" +:+ csrf +:+ DQ +:+ b1 ->
  starts_nowhere (attr_prefix "csrf") a1
    (attr_prefix "csrf" +:+ csrf +:+ DQ +:+ b1) = true ->
  body = a2 +:+ attr_prefix "__ncforminfo" +:+ ncform +:+ DQ +:+ b2 ->
  starts_nowhere (attr_prefix "__ncforminfo") a2
    (attr_prefix "__ncforminfo" +:+ ncform +:+ DQ +:+ b2) = true ->
  token_ok csrf = true ->
  token_ok ncform = true ->
  _get_tokens body = Ok (csrf, ncform).
Proof.
  intros Hb1 Hn1 Hb2 Hn2 Hc Hn.
  pose proof (findall_first _ _ _ _ Hc Hn1) as H1.
  pose proof (findall_first _ _ _ _ Hn Hn2) as H2.
  rewrite <- Hb1, <- csrf_pattern_shape in H1.
  rewrite <- Hb2, <- ncform_pattern_shape in H2.
  unfold _get_tokens. rewrite H1, H2.
  unfold token_ok in Hc, Hn.
  apply andb_true_iff in Hc as [Hc _]. apply andb_true_iff in Hc as [Hc _].
  apply andb_true_iff in Hn as [Hn _]. apply andb_true_iff in Hn as [Hn _].
  apply negb_true_iff in Hc, Hn. rewrite Hc, Hn. reflexivity.
Qed.

Lemma get_tokens_first_occurrence_witness :
  _get_tokens (Sample.login_page "abc" "xyz") = Ok ("abc", "xyz").
Proof.
  apply (get_tokens_first_occurrence _
           "<input "
           (">" +:+ String newline EmptyString +:+ "<input "
              +:+ attr_prefix "__ncforminfo" +:+ "xyz" +:+ DQ +:+ ">")
           ("<input " +:+ attr_prefix "csrf" +:+ "abc" +:+ DQ +:+ ">"
              +:+ String newline EmptyString +:+ "<input ")
           ">"); reflexivity.
Defined.

(** ** The session: [login], [logout], [__init__] *)

Lemma foldl_set_cookie_other (name : string) (l : list cookie) :
  forall jar : gmap (string * string * string) string,
    (forall c, In c l -> ck_name c <> name) ->
    forall d p,
      foldl RequestsCookieJar.set_cookie jar l !! (d, p, name) = jar !! (d, p, name).
Proof.
  induction l as [|c l IH]; intros jar Hl d p; [reflexivity|].
  cbn [foldl]. rewrite IH by (intros c' Hin; apply Hl; right; exact Hin).
  unfold RequestsCookieJar.set_cookie. apply lookup_insert_ne.
  intros Heq. injection Heq as _ _ Heq. apply (Hl c); [left; reflexivity|exact Heq].
Qed.

Section Session.

Variable portal : list event -> request -> reply.
Variable API : string -> string -> result unit.

Abbreviation session_request := (EarthExplorer.session_request portal).
Abbreviation login := (EarthExplorer.login portal).
Abbreviation logout := (EarthExplorer.logout portal).
Abbreviation __init__ := (EarthExplorer.__init__ portal API).

Lemma session_request_answer (r : request) (w : world) (rsp : response) :
  portal (log w) r = Answer rsp ->
  session_request r w = (Ok rsp, after_answer w r rsp).
Proof. intros H. unfold EarthExplorer.session_request. rewrite H. reflexivity. Qed.

Lemma session_request_fail (r : request) (w : world) (e : exn) :
  portal (log w) r = Fail e ->
  session_request r w = (Raise e, add_event w (Requested r)).
Proof. intros H. unfold EarthExplorer.session_request. rewrite H. reflexivity. Qed.

Lemma get_tokens_error (body : string) (e : exn) :
  _get_tokens body = Raise e -> e = IndexError.
Proof.
  unfold _get_tokens.
  destruct (Re.findall csrf_pattern body) as [|c l1] eqn:E1; [cbn; congruence|].
  destruct (Re.findall ncform_pattern body) as [|n l2] eqn:E2; [cbn; congruence|].
  cbn [index_first].
  rewrite (first_match_nonempty csrf_pattern body c csrf_pattern_has_group)
    by (rewrite E1; reflexivity).
  rewrite (first_match_nonempty ncform_pattern body n ncform_pattern_has_group)
    by (rewrite E2; reflexivity).
  discriminate.
Qed.

Lemma logged_in_error (w : world) (e : exn) :
  fst (EarthExplorer.logged_in w) = Raise e -> e = OtherError "CookieConflictError".
Proof.
  unfold EarthExplorer.logged_in.
  destruct (RequestsCookieJar.get (cookies w) "EROS_SSO_production_secure") as [o|e']
    eqn:E; cbn [fst]; [discriminate|].
  intros H. injection H as <-. exact (jar_get_error _ _ _ E).
Qed.

(** The run of [login], step by step. *)
Lemma login_cases (username password : string) (w : world) :
  login username password w
  = match portal (log w) (Get EE_LOGIN_URL) with
    | Fail e => (Raise e, add_event w (Requested (Get EE_LOGIN_URL)))
    | Answer r1 =>
        let w1 := after_answer w (Get EE_LOGIN_URL) r1 in
        match _get_tokens (text r1) with
        | Raise e => (Raise e, w1)
        | Ok tokens =>
            let post :=
              Post EE_LOGIN_URL
                (login_payload username password (fst tokens) (snd tokens)) in
            match portal (log w1) post with
            | Fail e => (Raise e, add_event w1 (Requested post))
            | Answer r2 =>
                let w2 := after_answer w1 post r2 in
                (match fst (EarthExplorer.logged_in w2) with
                 | Ok true => Ok tt
                 | Ok false => Raise (EarthExplorerError "EE: login failed.")
                 | Raise e => Raise e
                 end, w2)
            end
        end
    end.
Proof.
  unfold EarthExplorer.login, mbind, M_bind, EarthExplorer.session_request.
  destruct (portal (log w) (Get EE_LOGIN_URL)) as [r1|e]; [|reflexivity].
  cbn [lift]. destruct (_get_tokens (text r1)) as [tokens|e]; [|reflexivity].
  cbn zeta. unfold login_payload, after_answer.
  cbn [log set_cookies_of add_event cookies].
  match goal with |- context [portal ?l ?r] => destruct (portal l r) as [r2|e] end;
    [|reflexivity].
  unfold EarthExplorer.logged_in. cbn [cookies set_cookies_of add_event].
  match goal with |- context [RequestsCookieJar.get ?j ?n] =>
    destruct (RequestsCookieJar.get j n) as [o|e] end; [|reflexivity].
  cbn [fst]. destruct (py_bool o); reflexivity.
Qed.

(** A [login] that returns has the cookie in the jar. *)
Lemma login_ok_logged_in (username password : string) (w : world) :
  fst (login username password w) = Ok tt ->
  fst (EarthExplorer.logged_in (snd (login username password w))) = Ok true.
Proof.
  rewrite login_cases.
  destruct (portal (log w) (Get EE_LOGIN_URL)) as [r1|e]; [|discriminate].
  cbn zeta. destruct (_get_tokens (text r1)) as [tokens|e]; [|discriminate].
  match goal with |- context [portal ?l ?r] => destruct (portal l r) as [r2|e] end;
    [|discriminate].
  cbn [fst snd].
  match goal with |- context [fst (EarthExplorer.logged_in ?w2)] =>
    destruct (fst (EarthExplorer.logged_in w2)) as [[]|e] end;
    [reflexivity|discriminate|discriminate].
Qed.

(** X3. A successful [login] leaves the session logged in, and it has made
    two requests: the GET of the login page, then the POST of the
    credentials with the two tokens of that page. *)
Theorem login_success (username password : string) (w : world) :
  fst (login username password w) = Ok tt ->
  fst (EarthExplorer.logged_in (snd (login username password w))) = Ok true /\
  exists (r1 : response) (csrf ncform : string),
    portal (log w) (Get EE_LOGIN_URL) = Answer r1 /\
    _get_tokens (text r1) = Ok (csrf, ncform) /\
    log (snd (login username password w))
    = log w ++ [ Requested (Get EE_LOGIN_URL);
                 Requested (Post EE_LOGIN_URL
                              (login_payload username password csrf ncform)) ] /\
    files (snd (login username password w)) = files w.
Proof.
  intros Hok. split; [exact (login_ok_logged_in _ _ _ Hok)|]. revert Hok.
  rewrite login_cases.
  destruct (portal (log w) (Get EE_LOGIN_URL)) as [r1|e]; [|discriminate].
  cbn zeta.
  destruct (_get_tokens (text r1)) as [[csrf ncform]|e] eqn:Htok; [|discriminate].
  cbn [fst snd].
  match goal with |- context [portal ?l ?r] => destruct (portal l r) as [r2|e] end;
    [|discriminate].
  cbn [fst snd]. intros _.
  exists r1, csrf, ncform.
  split; [reflexivity|]. split; [exact Htok|]. split; [|reflexivity].
  unfold after_answer. cbn [log set_cookies_of add_event].
  rewrite <- app_assoc. reflexivity.
Qed.

(** X4. The errors of [login]: the error of the portal when a request
    fails; [IndexError] when the page lacks a token (nothing is posted);
    and, when both requests are answered, [EarthExplorerError]
    "EE: login failed." if the session is not logged in afterwards, or
    the [CookieConflictError] of the check itself if the jar then holds
    the session cookie more than once.  Nothing else. *)
Theorem login_errors (username password : string) (w : world) (e : exn) :
  fst (login username password w) = Raise e ->
  (portal (log w) (Get EE_LOGIN_URL) = Fail e /\
   log (snd (login username password w)) = log w ++ [Requested (Get EE_LOGIN_URL)])
  \/
  (e = IndexError /\
   log (snd (login username password w)) = log w ++ [Requested (Get EE_LOGIN_URL)])
  \/
  (exists payload,
     log (snd (login username password w))
     = log w ++ [Requested (Get EE_LOGIN_URL); Requested (Post EE_LOGIN_URL payload)] /\
     (portal (log w ++ [Requested (Get EE_LOGIN_URL)]) (Post EE_LOGIN_URL payload) = Fail e
      \/
      (e = EarthExplorerError "EE: login failed." /\
       fst (EarthExplorer.logged_in (snd (login username password w))) = Ok false)
      \/
      (e = OtherError "CookieConflictError" /\
       fst (EarthExplorer.logged_in (snd (login username password w))) = Raise e))).
Proof.
  rewrite login_cases.
  destruct (portal (log w) (Get EE_LOGIN_URL)) as [r1|e1].
  - cbn zeta. destruct (_get_tokens (text r1)) as [tokens|e1] eqn:Htok.
    + match goal with |- context [portal ?l ?r] =>
        destruct (portal l r) as [r2|e2] eqn:Hpost end.
      * cbn [fst snd].
        match goal with |- context [fst (EarthExplorer.logged_in ?w2)] =>
          destruct (fst (EarthExplorer.logged_in w2)) as [[]|e2] eqn:Hin end;
          [discriminate| |]; intros H; injection H as <-;
          right; right; eexists;
          (split; [unfold after_answer; cbn [log set_cookies_of add_event];
                   rewrite <- app_assoc; reflexivity|]).
        -- right. left. split; reflexivity.
        -- right. right. split; [exact (logged_in_error _ _ Hin)|reflexivity].
      * cbn [fst snd]. intros H. injection H as <-.
        right. right. eexists. split.
        -- unfold after_answer. cbn [log set_cookies_of add_event].
           rewrite <- app_assoc. reflexivity.
        -- left. exact Hpost.
    + cbn [fst snd]. intros H. injection H as <-.
      right. left. split; [exact (get_tokens_error _ _ Htok)|reflexivity].
  - cbn [fst snd]. intros H. injection H as <-. left. split; reflexivity.
Qed.

(** X5. [logout] sends one GET to the logout URL and clears nothing
    itself: when the answer sets no cookie of the session's name, the
    session is logged in afterwards exactly if it was before, and no file
    is touched. *)
Theorem logout_keeps_session_cookie (w : world) (r : response) :
  portal (log w) (Get EE_LOGOUT_URL) = Answer r ->
  (forall c, In c (set_cookies r) -> ck_name c <> SESSION_COOKIE) ->
  fst (logout w) = Ok tt /\
  fst (EarthExplorer.logged_in (snd (logout w))) = fst (EarthExplorer.logged_in w) /\
  log (snd (logout w)) = log w ++ [Requested (Get EE_LOGOUT_URL)] /\
  files (snd (logout w)) = files w.
Proof.
  intros Hp Hck.
  unfold EarthExplorer.logout, mbind, M_bind.
  rewrite (session_request_answer _ _ _ Hp). cbn [mret M_ret fst snd].
  split; [reflexivity|]. split; [|split; reflexivity].
  unfold EarthExplorer.logged_in, after_answer. cbn [cookies set_cookies_of].
  change "EROS_SSO_production_secure" with SESSION_COOKIE.
  rewrite (jar_get_ext (cookies w) _ SESSION_COOKIE (foldl_set_cookie_other _ _ _ Hck)).
  destruct (RequestsCookieJar.get (cookies w) SESSION_COOKIE); reflexivity.
Qed.

(** X6. When [__init__] returns, the session is logged in: the login
    succeeded from an empty jar and the API object was built. *)
Theorem init_success_logged_in (username password : string) (w : world) :
  fst (__init__ username password w) = Ok tt ->
  fst (EarthExplorer.logged_in (snd (__init__ username password w))) = Ok true /\
  fst (login username password (set_cookies_of w ∅)) = Ok tt /\
  API username password = Ok tt.
Proof.
  unfold EarthExplorer.__init__, mbind, M_bind. cbn [modify lift].
  pose proof (login_ok_logged_in username password (set_cookies_of w ∅)) as Hl.
  destruct (login username password (set_cookies_of w ∅)) as [[[]|e] w'];
    cbn [fst snd] in *; [|discriminate].
  destruct (API username password) as [[]|e]; [|discriminate].
  intros _. auto.
Qed.

(** [__init__] fails with the error of [login] when [login] fails. *)
Lemma init_login_failure (username password : string) (w : world) (e : exn) :
  fst (login username password (set_cookies_of w ∅)) = Raise e ->
  fst (__init__ username password w) = Raise e.
Proof.
  unfold EarthExplorer.__init__, mbind, M_bind. cbn [modify].
  destruct (login username password (set_cookies_of w ∅)) as [[[]|e'] w'];
    cbn [fst]; [discriminate|]. intros H. exact H.
Qed.

End Session.

Lemma login_success_witness :
  fst (EarthExplorer.login (Sample.portal_serving (Fail RequestsTimeout))
         "user" "secret" Sample.world0) = Ok tt /\
  fst (EarthExplorer.logged_in
         (snd (EarthExplorer.login (Sample.portal_serving (Fail RequestsTimeout))
                 "user" "secret" Sample.world0))) = Ok true.
Proof.
  assert (H : fst (EarthExplorer.login (Sample.portal_serving (Fail RequestsTimeout))
                     "user" "secret" Sample.world0) = Ok tt) by (vm_compute; reflexivity).
  split; [exact H|].
  exact (proj1 (login_success _ "user" "secret" Sample.world0 H)).
Defined.

(** The portal sets the session cookie on two domains: the check after
    the POST raises. *)
Lemma login_errors_witness :
  fst (EarthExplorer.login Sample.portal_conflicting "user" "secret" Sample.world0)
  = Raise (OtherError "CookieConflictError") /\
  exists payload,
    log (snd (EarthExplorer.login Sample.portal_conflicting "user" "secret" Sample.world0))
    = log Sample.world0
        ++ [Requested (Get EE_LOGIN_URL); Requested (Post EE_LOGIN_URL payload)].
Proof.
  assert (H : fst (EarthExplorer.login Sample.portal_conflicting "user" "secret"
                     Sample.world0)
              = Raise (OtherError "CookieConflictError")) by (vm_compute; reflexivity).
  split; [exact H|].
  destruct (login_errors Sample.portal_conflicting "user" "secret" Sample.world0 _ H)
    as [[Hp _]|[[He _]|(payload & Hlog & _)]].
  - discriminate Hp.
  - discriminate He.
  - exists payload. exact Hlog.
Defined.

Example login_rejected :
  fst (EarthExplorer.login Sample.portal_rejecting "user" "wrong" Sample.world0)
  = Raise (EarthExplorerError "EE: login failed.").
Proof. vm_compute. reflexivity. Qed.

Lemma logout_witness :
  (Sample.portal_serving (Fail RequestsTimeout)
     (log (World Sample.jar_logged_in ∅ 0 0 [])) (Get EE_LOGOUT_URL)
   = Answer (Sample.page (Sample.login_page "abc" "xyz") []) /\
   (forall c, In c (set_cookies (Sample.page (Sample.login_page "abc" "xyz") []))
              -> ck_name c <> SESSION_COOKIE)) /\
  fst (EarthExplorer.logged_in
         (snd (EarthExplorer.logout (Sample.portal_serving (Fail RequestsTimeout))
                 (World Sample.jar_logged_in ∅ 0 0 []))))
  = fst (EarthExplorer.logged_in (World Sample.jar_logged_in ∅ 0 0 [])).
Proof.
  assert (H1 : Sample.portal_serving (Fail RequestsTimeout)
                 (log (World Sample.jar_logged_in ∅ 0 0 [])) (Get EE_LOGOUT_URL)
               = Answer (Sample.page (Sample.login_page "abc" "xyz") [])) by reflexivity.
  assert (H2 : forall c,
                 In c (set_cookies (Sample.page (Sample.login_page "abc" "xyz") []))
                 -> ck_name c <> SESSION_COOKIE) by (intros c []).
  split; [split; assumption|].
  exact (proj1 (proj2 (logout_keeps_session_cookie _ _ _ H1 H2))).
Defined.

Lemma init_success_witness :
  fst (EarthExplorer.__init__ (Sample.portal_serving (Fail RequestsTimeout)) Sample.api_ok
         "user" "secret" Sample.world0) = Ok tt /\
  fst (EarthExplorer.logged_in
         (snd (EarthExplorer.__init__ (Sample.portal_serving (Fail RequestsTimeout))
                 Sample.api_ok "user" "secret" Sample.world0))) = Ok true.
Proof.
  assert (H : fst (EarthExplorer.__init__ (Sample.portal_serving (Fail RequestsTimeout))
                     Sample.api_ok "user" "secret" Sample.world0) = Ok tt)
    by (vm_compute; reflexivity).
  split; [exact H|].
  exact (proj1 (init_success_logged_in _ _ "user" "secret" Sample.world0 H)).
Defined.

(** ** [_download]: failures and what is left untouched *)

Section Download.

Variable portal : list event -> request -> reply.
Variable guess_dataset : string -> result string.
Variable is_product_id : string -> bool.
Variable get_scene_id : string -> string -> result string.
Variable py_int : option string -> result Z.
Variable os_open : string -> option string.

Abbreviation _download_try := (EarthExplorer._download_try portal py_int os_open).
Abbreviation _download := (EarthExplorer._download portal py_int os_open).
Abbreviation download :=
  (EarthExplorer.download portal guess_dataset is_product_id get_scene_id py_int os_open).

Lemma write_chunks_other_files (path : string) (size : Z) (cs : list (list Byte.byte))
    (p : string) :
  p <> path ->
  forall w, files (snd (EarthExplorer.write_chunks path size cs w)) !! p = files w !! p.
Proof.
  intros Hne. induction cs as [|c cs IH]; intros w; [reflexivity|].
  cbn [EarthExplorer.write_chunks]. unfold mbind, M_bind.
  destruct (bytes_falsy c); cbn [mret M_ret modify]; rewrite IH; [reflexivity|].
  cbn [files set_pbar set_files]. apply lookup_alter_ne. congruence.
Qed.

(** A name no item bears, whatever the case, is not in the headers. *)
Lemma store_lookup_none (items : list (string * string)) (key : string) :
  (forall k v, In (k, v) items -> str_lower k <> key) ->
  CaseInsensitiveDict.store items !! key = None.
Proof.
  unfold CaseInsensitiveDict.store. intros Hno.
  enough (H : forall m : gmap string string,
            foldl (fun m kv => <[str_lower (fst kv) := snd kv]> m) m items !! key
            = m !! key) by (rewrite H; apply lookup_empty).
  induction items as [|[k v] items IH]; intros m; [reflexivity|].
  cbn [foldl fst snd]. rewrite IH by (intros k' v' Hin; apply (Hno k' v'); right; exact Hin).
  apply lookup_insert_ne. apply (Hno k v). left. reflexivity.
Qed.

(** X7. When the request of [_download] fails, or the Content-Length
    cannot be read as an integer, with an error other than the timeout,
    that error is raised as it is and no file is created or changed. *)
Theorem download_fails_before_open (url output_dir : string) (timeout chunk_size : Z)
    (w : world) (e : exn) :
  e <> RequestsTimeout ->
  portal (log w) (GetStream url timeout) = Fail e \/
  (exists r, portal (log w) (GetStream url timeout) = Answer r /\
             py_int (CaseInsensitiveDict.get (headers r) "Content-Length") = Raise e) ->
  fst (_download url output_dir timeout chunk_size w) = Raise e /\
  files (snd (_download url output_dir timeout chunk_size w)) = files w /\
  log (snd (_download url output_dir timeout chunk_size w))
  = log w ++ [Requested (GetStream url timeout)].
Proof.
  intros Hne Hcase. rewrite _download_of_try.
  unfold EarthExplorer._download_try, mbind, M_bind, EarthExplorer.session_request.
  destruct Hcase as [Hp|(r & Hp & Hint)]; rewrite Hp; [|cbn [lift]; rewrite Hint];
    destruct e; try congruence; repeat split; reflexivity.
Qed.

(** X8. An answer that has no Content-Disposition header, in any case of
    the letters: [_download] raises the [KeyError] of the name in lower
    case, after the progress bar has been set up with the announced size,
    and no file is created or changed. *)
Theorem download_without_disposition (url output_dir : string) (timeout chunk_size : Z)
    (w : world) (r : response) (file_size : Z) :
  portal (log w) (GetStream url timeout) = Answer r ->
  py_int (CaseInsensitiveDict.get (headers r) "Content-Length") = Ok file_size ->
  (forall k v, In (k, v) (headers r) -> str_lower k <> "content-disposition") ->
  fst (_download url output_dir timeout chunk_size w)
  = Raise (KeyError "content-disposition") /\
  files (snd (_download url output_dir timeout chunk_size w)) = files w /\
  pbar_total (snd (_download url output_dir timeout chunk_size w)) = file_size /\
  pbar_n (snd (_download url output_dir timeout chunk_size w)) = 0.
Proof.
  intros Hp Hint Hdisp. rewrite _download_of_try.
  unfold EarthExplorer._download_try, mbind, M_bind, EarthExplorer.session_request,
    CaseInsensitiveDict.getitem.
  rewrite Hp. cbn [lift modify]. rewrite Hint.
  change (str_lower "Content-Disposition") with "content-disposition".
  rewrite (store_lookup_none _ _ Hdisp). repeat split; reflexivity.
Qed.

(** X9. A stream that breaks while the body is read: [_download] raises
    the error of [iter_content] as it is, never the error with the
    timeout message, and the file keeps the chunks received before it. *)
Theorem download_stream_error (url output_dir : string) (timeout chunk_size : Z)
    (w : world) (r : response) (file_size : Z) (disposition piece : string)
    (f : stream_failure) :
  portal (log w) (GetStream url timeout) = Answer r ->
  py_int (CaseInsensitiveDict.get (headers r) "Content-Length") = Ok file_size ->
  CaseInsensitiveDict.get (headers r) "Content-Disposition" = Some disposition ->
  index_last (str_split "=" disposition) = Ok piece ->
  os_open (os_path_join output_dir (str_remove dquote piece)) = None ->
  stream_error r = Some f ->
  fst (_download url output_dir timeout chunk_size w) = Raise (iter_content_error f) /\
  (forall msg, iter_content_error f <> EarthExplorerError msg) /\
  files (snd (_download url output_dir timeout chunk_size w))
    !! os_path_join output_dir (str_remove dquote piece)
  = Some (concat (chunks r)).
Proof.
  intros Hp Hint Hdisp Hpiece Hopen Herr. rewrite _download_of_try.
  destruct (_download_try_answer portal py_int os_open _ output_dir _ chunk_size _ _ _ _ _
              Hp Hint Hdisp Hpiece Hopen) as (w' & Hrun & Hf & _).
  rewrite Hrun, Herr.
  destruct f; (split; [reflexivity|split; [discriminate|exact Hf]]).
Qed.

(** X10. [_download] changes one file only, the one it names after the
    header; the jar changes by the cookies of the answer and nothing
    else. *)
Theorem download_touches_one_file (url output_dir : string) (timeout chunk_size : Z)
    (w : world) (r : response) (file_size : Z) (disposition piece : string) :
  portal (log w) (GetStream url timeout) = Answer r ->
  py_int (CaseInsensitiveDict.get (headers r) "Content-Length") = Ok file_size ->
  CaseInsensitiveDict.get (headers r) "Content-Disposition" = Some disposition ->
  index_last (str_split "=" disposition) = Ok piece ->
  (forall p : string,
     p <> os_path_join output_dir (str_remove dquote piece) ->
     files (snd (_download url output_dir timeout chunk_size w)) !! p = files w !! p) /\
  cookies (snd (_download url output_dir timeout chunk_size w))
  = foldl RequestsCookieJar.set_cookie (cookies w) (set_cookies r).
Proof.
  intros Hp Hint Hdisp Hpiece.
  set (path := os_path_join output_dir (str_remove dquote piece)).
  set (w1 := set_pbar (after_answer w (GetStream url timeout) r) file_size 0).
  assert (Hsnd : exists res,
            _download url output_dir timeout chunk_size w
            = (res,
               match os_open path with
               | Some _ => w1
               | None =>
                   snd (EarthExplorer.write_chunks path chunk_size (chunks r)
                          (set_files w1 (<[path := []]> (files w))))
               end)).
  { rewrite _download_of_try.
    unfold EarthExplorer._download_try, mbind, M_bind, EarthExplorer.session_request.
    rewrite Hp. cbn [lift modify]. rewrite Hint, (getitem_of_get _ _ _ Hdisp), Hpiece.
    fold path. destruct (os_open path) as [err|]; [eexists; reflexivity|].
    cbn [modify].
    destruct (write_chunks_spec path chunk_size (chunks r)
                (set_files w1 (<[path := []]> (files w))) [])
      as (w' & Hrun & _); [apply lookup_insert_eq|].
    change (set_files (set_pbar _ file_size 0) _)
      with (set_files w1 (<[path := []]> (files w))).
    rewrite Hrun. cbn [snd].
    destruct (stream_error r) as [f|]; [destruct f|]; eexists; reflexivity. }
  destruct Hsnd as [res ->]. cbn [snd].
  destruct (os_open path) as [err|]; [split; [intros p _|]; reflexivity|].
  split.
  - intros p Hne. rewrite (write_chunks_other_files _ _ _ p Hne).
    cbn [files set_files]. apply lookup_insert_ne. congruence.
  - destruct (write_chunks_spec path chunk_size (chunks r)
                (set_files w1 (<[path := []]> (files w))) [])
      as (w' & Hrun & _ & _ & _ & _ & Hck); [apply lookup_insert_eq|].
    rewrite Hrun. cbn [snd]. rewrite Hck. reflexivity.
Qed.

(** X11. A file name that starts with a slash is taken as it is: the file
    is written at that absolute path and the output directory plays no
    part. *)
Theorem download_absolute_filename (url output_dir : string) (timeout chunk_size : Z)
    (w : world) (r : response) (file_size : Z) (pre suf : string) :
  portal (log w) (GetStream url timeout) = Answer r ->
  py_int (CaseInsensitiveDict.get (headers r) "Content-Length") = Ok file_size ->
  CaseInsensitiveDict.get (headers r) "Content-Disposition"
  = Some (pre +:+ String "=" suf) ->
  str_contains_char "=" suf = false ->
  stream_error r = None ->
  str_startswith "/" (str_remove dquote suf) = true ->
  os_open (str_remove dquote suf) = None ->
  fst (_download url output_dir timeout chunk_size w) = Ok (str_remove dquote suf) /\
  files (snd (_download url output_dir timeout chunk_size w)) !! str_remove dquote suf
  = Some (concat (chunks r)).
Proof.
  intros Hp Hint Hdisp Hsuf Herr Habs Hopen. rewrite _download_of_try.
  assert (Hjoin : os_path_join output_dir (str_remove dquote suf) = str_remove dquote suf)
    by (unfold os_path_join; rewrite Habs; reflexivity).
  rewrite <- Hjoin in Hopen.
  destruct (_download_try_answer portal py_int os_open _ output_dir _ chunk_size _ _ _ _ _
              Hp Hint Hdisp (str_split_last "=" pre suf Hsuf) Hopen)
    as (w' & Hrun & Hf & _).
  rewrite Hrun, Herr. rewrite Hjoin in *. split; [reflexivity|exact Hf].
Qed.

(** *** [download] before the request *)

Lemma count_guess_dataset_events (dataset : option string) (scene_id : string) :
  count_events is_GuessDataset (EarthExplorer.dataset_events dataset scene_id)
  = if dataset_falsy dataset then 1%nat else 0%nat.
Proof.
  unfold EarthExplorer.dataset_events, dataset_falsy.
  destruct dataset as [d|]; [destruct (str_falsy d)|]; reflexivity.
Qed.

Lemma count_guess_scene_events (scene_id d : string) :
  count_events is_GuessDataset (EarthExplorer.scene_events is_product_id scene_id d)
  = 0%nat.
Proof. unfold EarthExplorer.scene_events. destruct (is_product_id scene_id); reflexivity. Qed.

(** X12. A product identifier whose resolution fails: [download] raises
    the error of [get_scene_id], whether or not the dataset is in the
    table, and requests nothing. *)
Theorem download_resolver_failure (scene_id output_dir : string)
    (dataset : option string) (timeout : Z) (w : world) (d : string) (e : exn) :
  EarthExplorer.dataset_of guess_dataset dataset scene_id = Ok d ->
  is_product_id scene_id = true ->
  get_scene_id scene_id d = Raise e ->
  fst (download scene_id output_dir dataset timeout w) = Raise e /\
  log (snd (download scene_id output_dir dataset timeout w))
  = log w ++ Makedirs output_dir :: EarthExplorer.dataset_events dataset scene_id
      ++ [GetSceneId scene_id d] /\
  count_events is_Requested_GetStream
    (log (snd (download scene_id output_dir dataset timeout w)))
  = count_events is_Requested_GetStream (log w).
Proof.
  intros Hd Hprod Hres.
  rewrite download_cases, Hd. cbn zeta.
  unfold EarthExplorer.scene_of, EarthExplorer.prelude_events, EarthExplorer.scene_events.
  rewrite Hprod, Hres. cbn [fst snd]. rewrite log_add_events.
  split; [reflexivity|]. split; [reflexivity|].
  rewrite count_events_app, count_events_cons, count_events_app,
    count_dataset_events, count_events_cons by reflexivity.
  change (count_events is_Requested_GetStream []) with 0%nat.
  cbn [is_Requested_GetStream]. lia.
Qed.

(** X13. Once the output directory is there ([os.makedirs] is the first
    step), [download] asks [guess_dataset] once when no dataset (or an
    empty one) is given, and never when one is given, whatever happens
    afterwards. *)
Theorem download_makedirs_then_guess (scene_id output_dir : string)
    (dataset : option string) (timeout : Z) (w : world) :
  exists rest : list event,
    log (snd (download scene_id output_dir dataset timeout w))
    = log w ++ Makedirs output_dir :: rest /\
    count_events is_GuessDataset rest
    = if dataset_falsy dataset then 1%nat else 0%nat.
Proof.
  rewrite download_cases.
  pose proof (count_guess_dataset_events dataset scene_id) as Hg.
  destruct (EarthExplorer.dataset_of guess_dataset dataset scene_id) as [d|e].
  - cbn zeta. pose proof (count_guess_scene_events scene_id d) as Hs.
    unfold EarthExplorer.prelude_events.
    destruct (EarthExplorer.scene_of is_product_id get_scene_id scene_id d) as [sid|e];
      [destruct (DATA_PRODUCTS !! d) as [code|]|].
    + eexists. rewrite _download_log, log_add_events, <- app_assoc.
      split; [reflexivity|].
      rewrite !count_events_app, Hg, Hs, count_events_cons.
      change (count_events is_GuessDataset []) with 0%nat.
      cbn [is_GuessDataset]. lia.
    + eexists. cbn [snd]. rewrite log_add_events. split; [reflexivity|].
      rewrite count_events_app, Hg, Hs. lia.
    + eexists. cbn [snd]. rewrite log_add_events. split; [reflexivity|].
      rewrite count_events_app, Hg, Hs. lia.
  - eexists. cbn [snd]. rewrite log_add_events. split; [reflexivity|]. exact Hg.
Qed.

(** X14. In every run [download] sends at most one request, the
    streamed GET, and never posts: there is no retry on any path. *)
Theorem download_at_most_one_request (scene_id output_dir : string)
    (dataset : option string) (timeout : Z) (w : world) :
  (count_events is_Requested_GetStream
     (log (snd (download scene_id output_dir dataset timeout w)))
   <= S (count_events is_Requested_GetStream (log w)))%nat /\
  count_events is_Requested_Post
    (log (snd (download scene_id output_dir dataset timeout w)))
  = count_events is_Requested_Post (log w).
Proof.
  rewrite download_cases.
  assert (Hpre : forall p d,
            p (Makedirs output_dir) = false -> p (GuessDataset scene_id) = false ->
            p (GetSceneId scene_id d) = false ->
            count_events p
              (EarthExplorer.prelude_events is_product_id scene_id output_dir dataset d)
            = 0%nat).
  { intros p d H1 H2 H3. unfold EarthExplorer.prelude_events, EarthExplorer.scene_events.
    rewrite count_events_cons, count_events_app, count_dataset_events, H1 by exact H2.
    destruct (is_product_id scene_id); [rewrite count_events_cons, H3|]; reflexivity. }
  destruct (EarthExplorer.dataset_of guess_dataset dataset scene_id) as [d|e].
  - cbn zeta.
    destruct (EarthExplorer.scene_of is_product_id get_scene_id scene_id d) as [sid|e];
      [destruct (DATA_PRODUCTS !! d) as [code|]|];
      [rewrite _download_log, log_add_events, !count_events_app, !Hpre,
         !count_events_cons by reflexivity;
       change (count_events is_Requested_GetStream []) with 0%nat;
       change (count_events is_Requested_Post []) with 0%nat;
       cbn [is_Requested_GetStream is_Requested_Post]; lia
      | cbn [snd]; rewrite log_add_events, !count_events_app, !Hpre by reflexivity; lia ..].
  - cbn [snd]. rewrite log_add_events, !count_events_app, !count_events_cons,
      !count_dataset_events by reflexivity.
    cbn [is_Requested_GetStream is_Requested_Post]. lia.
Qed.

End Download.

(** *** The same at concrete inputs *)

Lemma download_fails_before_open_witness :
  (OtherError "ConnectionError" <> RequestsTimeout /\
   (Sample.portal_serving (Fail (OtherError "ConnectionError")) (log Sample.world0)
      (GetStream "https://earthexplorer.usgs.gov/download/x/y/EE/" 300)
    = Fail (OtherError "ConnectionError") \/
    exists r,
      Sample.portal_serving (Fail (OtherError "ConnectionError")) (log Sample.world0)
        (GetStream "https://earthexplorer.usgs.gov/download/x/y/EE/" 300) = Answer r /\
      Sample.int_of_header (CaseInsensitiveDict.get (headers r) "Content-Length")
      = Raise (OtherError "ConnectionError"))) /\
  fst (EarthExplorer._download (Sample.portal_serving (Fail (OtherError "ConnectionError")))
         Sample.int_of_header Sample.open_unless_directory
         "https://earthexplorer.usgs.gov/download/x/y/EE/" "out" 300 1024 Sample.world0)
  = Raise (OtherError "ConnectionError").
Proof.
  assert (H1 : OtherError "ConnectionError" <> RequestsTimeout) by discriminate.
  assert (H2 : Sample.portal_serving (Fail (OtherError "ConnectionError"))
                 (log Sample.world0)
                 (GetStream "https://earthexplorer.usgs.gov/download/x/y/EE/" 300)
               = Fail (OtherError "ConnectionError") \/
               exists r,
                 Sample.portal_serving (Fail (OtherError "ConnectionError"))
                   (log Sample.world0)
                   (GetStream "https://earthexplorer.usgs.gov/download/x/y/EE/" 300)
                 = Answer r /\
                 Sample.int_of_header (CaseInsensitiveDict.get (headers r) "Content-Length")
                 = Raise (OtherError "ConnectionError")) by (left; reflexivity).
  split; [split; assumption|].
  exact (proj1 (download_fails_before_open _ Sample.int_of_header
                  Sample.open_unless_directory _ "out" 300 1024 Sample.world0 _ H1 H2)).
Defined.

Lemma download_without_disposition_witness :
  (Sample.portal_serving (Answer Sample.nameless_archive) (log Sample.world0)
     (GetStream "https://earthexplorer.usgs.gov/download/x/y/EE/" 300)
   = Answer Sample.nameless_archive /\
   Sample.int_of_header
     (CaseInsensitiveDict.get (headers Sample.nameless_archive) "Content-Length") = Ok 3 /\
   (forall k v, In (k, v) (headers Sample.nameless_archive) ->
                str_lower k <> "content-disposition")) /\
  fst (EarthExplorer._download (Sample.portal_serving (Answer Sample.nameless_archive))
         Sample.int_of_header Sample.open_unless_directory
         "https://earthexplorer.usgs.gov/download/x/y/EE/" "out" 300 1024 Sample.world0)
  = Raise (KeyError "content-disposition").
Proof.
  assert (H1 : Sample.portal_serving (Answer Sample.nameless_archive) (log Sample.world0)
                 (GetStream "https://earthexplorer.usgs.gov/download/x/y/EE/" 300)
               = Answer Sample.nameless_archive) by reflexivity.
  assert (H2 : Sample.int_of_header
                 (CaseInsensitiveDict.get (headers Sample.nameless_archive) "Content-Length")
               = Ok 3) by (vm_compute; reflexivity).
  assert (H3 : forall k v, In (k, v) (headers Sample.nameless_archive) ->
                           str_lower k <> "content-disposition").
  { intros k v [H|[]]. injection H as <- _. discriminate. }
  split; [repeat split; assumption|].
  exact (proj1 (download_without_disposition _ Sample.int_of_header
                  Sample.open_unless_directory _ "out" 300 1024 Sample.world0 _ _
                  H1 H2 H3)).
Defined.

Lemma download_stream_error_witness :
  (Sample.portal_serving (Answer Sample.stalled_archive) (log Sample.world0)
     (GetStream "https://earthexplorer.usgs.gov/download/x/y/EE/" 300)
   = Answer Sample.stalled_archive /\
   Sample.int_of_header
     (CaseInsensitiveDict.get (headers Sample.stalled_archive) "Content-Length") = Ok 3 /\
   CaseInsensitiveDict.get (headers Sample.stalled_archive) "Content-Disposition"
   = Some Sample.tar_disposition /\
   index_last (str_split "=" Sample.tar_disposition)
   = Ok (DQ +:+ "LC08_scene.tar" +:+ DQ) /\
   Sample.open_unless_directory
     (os_path_join "out" (str_remove dquote (DQ +:+ "LC08_scene.tar" +:+ DQ))) = None /\
   stream_error Sample.stalled_archive = Some ReadTimedOut) /\
  fst (EarthExplorer._download (Sample.portal_serving (Answer Sample.stalled_archive))
         Sample.int_of_header Sample.open_unless_directory
         "https://earthexplorer.usgs.gov/download/x/y/EE/" "out" 300 1024 Sample.world0)
  = Raise (OtherError "ConnectionError") /\
  files (snd (EarthExplorer._download (Sample.portal_serving (Answer Sample.stalled_archive))
                Sample.int_of_header Sample.open_unless_directory
                "https://earthexplorer.usgs.gov/download/x/y/EE/" "out" 300 1024
                Sample.world0))
    !! "out/LC08_scene.tar"
  = Some [Byte.x4c].
Proof.
  assert (H1 : Sample.portal_serving (Answer Sample.stalled_archive) (log Sample.world0)
                 (GetStream "https://earthexplorer.usgs.gov/download/x/y/EE/" 300)
               = Answer Sample.stalled_archive) by reflexivity.
  assert (H2 : Sample.int_of_header
                 (CaseInsensitiveDict.get (headers Sample.stalled_archive) "Content-Length")
               = Ok 3) by (vm_compute; reflexivity).
  assert (H3 : CaseInsensitiveDict.get (headers Sample.stalled_archive)
                 "Content-Disposition"
               = Some Sample.tar_disposition) by (vm_compute; reflexivity).
  assert (H4 : index_last (str_split "=" Sample.tar_disposition)
               = Ok (DQ +:+ "LC08_scene.tar" +:+ DQ)) by reflexivity.
  assert (H5 : Sample.open_unless_directory
                 (os_path_join "out" (str_remove dquote (DQ +:+ "LC08_scene.tar" +:+ DQ)))
               = None) by reflexivity.
  assert (H6 : stream_error Sample.stalled_archive = Some ReadTimedOut) by reflexivity.
  split; [repeat split; assumption|].
  destruct (download_stream_error _ Sample.int_of_header Sample.open_unless_directory
              _ "out" 300 1024 Sample.world0 _ _ _ _ _ H1 H2 H3 H4 H5 H6)
    as (Hres & _ & Hfile).
  split; [exact Hres|exact Hfile].
Defined.

Lemma download_touches_one_file_witness :
  (Sample.portal_serving (Answer Sample.tar_archive)
     (log (World ∅ (<["out/notes.txt" := [Byte.x68; Byte.x69]]> ∅) 0 0 []))
     (GetStream "https://earthexplorer.usgs.gov/download/x/y/EE/" 300)
   = Answer Sample.tar_archive /\
   Sample.int_of_header
     (CaseInsensitiveDict.get (headers Sample.tar_archive) "Content-Length") = Ok 3 /\
   CaseInsensitiveDict.get (headers Sample.tar_archive) "Content-Disposition"
   = Some Sample.tar_disposition /\
   index_last (str_split "=" Sample.tar_disposition)
   = Ok (DQ +:+ "LC08_scene.tar" +:+ DQ) /\
   "out/notes.txt" <> "out/LC08_scene.tar") /\
  files (snd (EarthExplorer._download (Sample.portal_serving (Answer Sample.tar_archive))
                Sample.int_of_header Sample.open_unless_directory
                "https://earthexplorer.usgs.gov/download/x/y/EE/" "out" 300 1024
                (World ∅ (<["out/notes.txt" := [Byte.x68; Byte.x69]]> ∅) 0 0 [])))
    !! "out/notes.txt"
  = files (World ∅ (<["out/notes.txt" := [Byte.x68; Byte.x69]]> ∅) 0 0 [])
      !! "out/notes.txt".
Proof.
  assert (H1 : Sample.portal_serving (Answer Sample.tar_archive)
                 (log (World ∅ (<["out/notes.txt" := [Byte.x68; Byte.x69]]> ∅) 0 0 []))
                 (GetStream "https://earthexplorer.usgs.gov/download/x/y/EE/" 300)
               = Answer Sample.tar_archive) by reflexivity.
  assert (H2 : Sample.int_of_header
                 (CaseInsensitiveDict.get (headers Sample.tar_archive) "Content-Length")
               = Ok 3) by (vm_compute; reflexivity).
  assert (H3 : CaseInsensitiveDict.get (headers Sample.tar_archive) "Content-Disposition"
               = Some Sample.tar_disposition) by (vm_compute; reflexivity).
  assert (H4 : index_last (str_split "=" Sample.tar_disposition)
               = Ok (DQ +:+ "LC08_scene.tar" +:+ DQ)) by reflexivity.
  assert (H5 : "out/notes.txt" <> "out/LC08_scene.tar") by discriminate.
  split; [repeat split; assumption|].
  exact (proj1 (download_touches_one_file _ Sample.int_of_header
                  Sample.open_unless_directory _ "out" 300 1024
                  (World ∅ (<["out/notes.txt" := [Byte.x68; Byte.x69]]> ∅) 0 0 [])
                  _ _ _ _ H1 H2 H3 H4) "out/notes.txt" H5).
Defined.

Lemma download_absolute_filename_witness :
  (Sample.portal_serving (Answer Sample.absolute_archive) (log Sample.world0)
     (GetStream "https://earthexplorer.usgs.gov/download/x/y/EE/" 300)
   = Answer Sample.absolute_archive /\
   Sample.int_of_header
     (CaseInsensitiveDict.get (headers Sample.absolute_archive) "Content-Length") = Ok 3 /\
   CaseInsensitiveDict.get (headers Sample.absolute_archive) "Content-Disposition"
   = Some ("attachment; filename" +:+ String "=" (DQ +:+ "/tmp/evil.tar" +:+ DQ)) /\
   str_contains_char "=" (DQ +:+ "/tmp/evil.tar" +:+ DQ) = false /\
   stream_error Sample.absolute_archive = None /\
   str_startswith "/" (str_remove dquote (DQ +:+ "/tmp/evil.tar" +:+ DQ)) = true /\
   Sample.open_unless_directory (str_remove dquote (DQ +:+ "/tmp/evil.tar" +:+ DQ))
   = None) /\
  fst (EarthExplorer._download (Sample.portal_serving (Answer Sample.absolute_archive))
         Sample.int_of_header Sample.open_unless_directory
         "https://earthexplorer.usgs.gov/download/x/y/EE/" "out" 300 1024 Sample.world0)
  = Ok "/tmp/evil.tar".
Proof.
  assert (H1 : Sample.portal_serving (Answer Sample.absolute_archive) (log Sample.world0)
                 (GetStream "https://earthexplorer.usgs.gov/download/x/y/EE/" 300)
               = Answer Sample.absolute_archive) by reflexivity.
  assert (H2 : Sample.int_of_header
                 (CaseInsensitiveDict.get (headers Sample.absolute_archive) "Content-Length")
               = Ok 3) by (vm_compute; reflexivity).
  assert (H3 : CaseInsensitiveDict.get (headers Sample.absolute_archive)
                 "Content-Disposition"
               = Some ("attachment; filename"
                         +:+ String "=" (DQ +:+ "/tmp/evil.tar" +:+ DQ)))
    by (vm_compute; reflexivity).
  assert (H4 : str_contains_char "=" (DQ +:+ "/tmp/evil.tar" +:+ DQ) = false)
    by reflexivity.
  assert (H5 : stream_error Sample.absolute_archive = None) by reflexivity.
  assert (H6 : str_startswith "/" (str_remove dquote (DQ +:+ "/tmp/evil.tar" +:+ DQ))
               = true) by reflexivity.
  assert (H7 : Sample.open_unless_directory
                 (str_remove dquote (DQ +:+ "/tmp/evil.tar" +:+ DQ)) = None)
    by reflexivity.
  split; [repeat split; assumption|].
  exact (proj1 (download_absolute_filename _ Sample.int_of_header
                  Sample.open_unless_directory _ "out" 300 1024
                  Sample.world0 _ _ _ _ H1 H2 H3 H4 H5 H6 H7)).
Defined.

Lemma download_resolver_failure_witness :
  (EarthExplorer.dataset_of Sample.guess_landsat8 None Sample.product_id_sample
   = Ok "landsat_ot_c2_l1" /\
   Sample.product_id_by_length Sample.product_id_sample = true /\
   Sample.resolver_fails Sample.product_id_sample "landsat_ot_c2_l1"
   = Raise (OtherError "USGSError")) /\
  fst (EarthExplorer.download (Sample.portal_serving (Answer Sample.tar_archive))
         Sample.guess_landsat8 Sample.product_id_by_length Sample.resolver_fails
         Sample.int_of_header Sample.open_unless_directory
         Sample.product_id_sample "out" None 300 Sample.world0)
  = Raise (OtherError "USGSError").
Proof.
  assert (H1 : EarthExplorer.dataset_of Sample.guess_landsat8 None Sample.product_id_sample
               = Ok "landsat_ot_c2_l1") by reflexivity.
  assert (H2 : Sample.product_id_by_length Sample.product_id_sample = true) by reflexivity.
  assert (H3 : Sample.resolver_fails Sample.product_id_sample "landsat_ot_c2_l1"
               = Raise (OtherError "USGSError")) by reflexivity.
  split; [repeat split; assumption|].
  exact (proj1 (download_resolver_failure (Sample.portal_serving (Answer Sample.tar_archive))
                  Sample.guess_landsat8 Sample.product_id_by_length Sample.resolver_fails
                  Sample.int_of_header Sample.open_unless_directory
                  Sample.product_id_sample "out" None 300
                  Sample.world0 _ _ H1 H2 H3)).
Defined.
